(** * WaveDromProject: input resolution, parsing and classification

    A shallow embedding of [python_wavedrom/python/wavedrom_project.py].

    The class [WaveDromProject] takes one string (a path or raw JSON5
    text), resolves it to text, hands the text to the external parser
    [pyjson5.loads], checks that the root is a dict, determines the
    diagram type from the top-level keys and copies three optional
    attributes.  The file system and the parser are external: they are
    the fields of an environment record [Env] on which every definition
    is parametric. *)

From Stdlib Require Import ZArith String Ascii Floats.SpecFloat.
From stdpp Require Import base option gmap strings list.

Local Open Scope string_scope.
Local Set Warnings "-register-all".

(** ** Values of the parsed document

    What [pyjson5.loads] can return: [None], [bool], [int], [float],
    [str], [list] and [dict] (string keys). *)

Inductive value : Type :=
  | VNone
  | VBool (b : bool)
  | VInt (n : Z)
  | VFloat (f : spec_float)
  | VStr (s : string)
  | VList (items : list value)
  | VDict (entries : gmap string value).

(** [isinstance(v, list)] and [isinstance(v, dict)]. *)
Definition is_list (v : value) : bool :=
  match v with VList _ => true | _ => false end.

Definition is_dict (v : value) : bool :=
  match v with VDict _ => true | _ => false end.

(** [d.get(k, dflt)]. *)
Definition dict_get (d : gmap string value) (k : string) (dflt : value) : value :=
  default dflt (d !! k).

(** The literal [{}]. *)
Definition empty_dict : value := VDict ∅.

(** ** Strings *)

(** The double-quote character, which occurs in the messages. *)
Definition dq : string := String "034"%char EmptyString.

(** [s.endswith(suffix)]: compare the tail of [s] of the suffix's length. *)
Definition endswith (s suffix : string) : bool :=
  (String.length suffix <=? String.length s)%nat
  && String.eqb
       (substring (String.length s - String.length suffix)
                  (String.length suffix) s)
       suffix.

(** [s.startswith(p)], used to read the tag of a message. *)
Fixpoint startswith (s p : string) {struct p} : bool :=
  match p with
  | EmptyString => true
  | String c p' =>
      match s with
      | EmptyString => false
      | String d s' => Ascii.eqb c d && startswith s' p'
      end
  end.

(** ** Exceptions and results *)

(** The exception classes that occur.  [AttributeError] is what reading
    an attribute that was never assigned raises. *)
Inductive exn : Type :=
  | FileNotFoundError (msg : string)
  | ValueError (msg : string)
  | AttributeError (msg : string).

(** The class of an exception: what an [except] clause dispatches on. *)
Inductive exn_class : Type := CFileNotFoundError | CValueError | CAttributeError.

Definition class_of (e : exn) : exn_class :=
  match e with
  | FileNotFoundError _ => CFileNotFoundError
  | ValueError _ => CValueError
  | AttributeError _ => CAttributeError
  end.

(** The result of a call that uses no object state. *)
Inductive result (A : Type) : Type :=
  | Ok (a : A)
  | Err (e : exn).
Arguments Ok {A} a.
Arguments Err {A} e.

(** ** The environment: file system and parser *)

(** An external call returns, or raises an [Exception] [e] of which the
    code only uses [str(e)]. *)
Inductive ext (A : Type) : Type :=
  | Returns (a : A)
  | Raises (str_e : string).
Arguments Returns {A} a.
Arguments Raises {A} str_e.

Record Env : Type := {
  isfile : string -> bool;           (* os.path.isfile(path) *)
  read_text : string -> ext string;  (* open(path, 'r', encoding='utf-8').read() *)
  loads : string -> ext value        (* pyjson5.loads(content) *)
}.

(** ** Messages *)

Definition msg_not_found (input_data : string) : string :=
  "File not found: " ++ input_data.

Definition msg_read_error (input_data str_e : string) : string :=
  "Error reading file " ++ input_data ++ ": " ++ str_e.

Definition msg_parse_error (str_e : string) : string :=
  "[Parse Error]: Invalid JSON5 format - " ++ str_e.

Definition msg_root : string :=
  "[Semantic]: The root has to be an Object: " ++ dq ++ "{signal:[...]}" ++ dq.

Definition msg_signal_array : string :=
  "[Semantic]: " ++ dq ++ "signal" ++ dq ++ " object has to be an Array "
  ++ dq ++ "signal:[]" ++ dq.

Definition msg_assign_array : string :=
  "[Semantic]: " ++ dq ++ "assign" ++ dq ++ " object has to be an Array "
  ++ dq ++ "assign:[]" ++ dq.

Definition msg_missing : string :=
  "[Semantic]: " ++ dq ++ "signal:[...]" ++ dq ++ ", " ++ dq ++ "assign:[...]" ++ dq
  ++ ", or " ++ dq ++ "reg:[...]" ++ dq
  ++ " property is missing inside the root Object".

(** ** The methods that use no object state *)

(** [_get_content(self, input_data)]. *)
Definition _get_content (env : Env) (input_data : string) : result string :=
  if endswith input_data ".json5" || endswith input_data ".json" then
    if isfile env input_data then
      match read_text env input_data with
      | Returns text => Ok text
      | Raises str_e => Err (ValueError (msg_read_error input_data str_e))
      end
    else Err (FileNotFoundError (msg_not_found input_data))
  else Ok input_data.

(** [_parse_json5(self, content)]. *)
Definition _parse_json5 (env : Env) (content : string) : result (gmap string value) :=
  match loads env content with
  | Raises str_e => Err (ValueError (msg_parse_error str_e))
  | Returns parsed =>
      match parsed with
      | VDict d => Ok d
      | _ => Err (ValueError msg_root)
      end
  end.

(** ** The object and the methods that read or assign its attributes *)

(** The attributes of a [WaveDromProject] object.  An attribute exists
    once it has been assigned.  [config], [head] and [foot] are
    annotated [Dict[str, Any]] but hold whatever the document has. *)
Record Instance : Type := {
  source : option (gmap string value);
  diagram_type : option string;
  config : option value;
  head : option value;
  foot : option value
}.

(** The object just allocated, before [__init__] runs. *)
Definition object_new : Instance :=
  {| source := None; diagram_type := None;
     config := None; head := None; foot := None |}.

(** How a method call on [self] ends: it returns a value or raises, and
    leaves the object in some state either way. *)
Inductive outcome (A : Type) : Type :=
  | Normal (a : A) (self : Instance)
  | Raised (e : exn) (self : Instance).
Arguments Normal {A} a self.
Arguments Raised {A} e self.

Definition M (A : Type) : Type := Instance -> outcome A.

#[global] Instance M_ret : MRet M := λ A a self, Normal a self.

#[global] Instance M_bind : MBind M := λ A B k m self,
  match m self with
  | Normal a self' => k a self'
  | Raised e self' => Raised e self'
  end.

Definition raise {A : Type} (e : exn) : M A := λ self, Raised e self.

(** A call to a method that does not touch [self]. *)
Definition call {A : Type} (r : result A) : M A :=
  match r with Ok a => mret a | Err e => raise e end.

(** [self.<name>]. *)
Definition getattr {A : Type} (name : string) (field : Instance -> option A) : M A :=
  λ self,
    match field self with
    | Some a => Normal a self
    | None =>
        Raised (AttributeError
                  ("'WaveDromProject' object has no attribute '" ++ name ++ "'"))
               self
    end.

(** [self.<name> = v], one definition per attribute. *)
Definition set_source (v : gmap string value) : M unit := λ self,
  Normal tt {| source := Some v; diagram_type := diagram_type self;
               config := config self; head := head self; foot := foot self |}.

Definition set_diagram_type (v : string) : M unit := λ self,
  Normal tt {| source := source self; diagram_type := Some v;
               config := config self; head := head self; foot := foot self |}.

Definition set_config (v : value) : M unit := λ self,
  Normal tt {| source := source self; diagram_type := diagram_type self;
               config := Some v; head := head self; foot := foot self |}.

Definition set_head (v : value) : M unit := λ self,
  Normal tt {| source := source self; diagram_type := diagram_type self;
               config := config self; head := Some v; foot := foot self |}.

Definition set_foot (v : value) : M unit := λ self,
  Normal tt {| source := source self; diagram_type := diagram_type self;
               config := config self; head := head self; foot := Some v |}.

(** [_determine_diagram_type(self)].  [k in d] followed by [d[k]] is the
    match on the lookup of [k]. *)
Definition _determine_diagram_type : M string :=
  src ← getattr "source" source;
  match src !! "signal" with
  | Some v =>
      if negb (is_list v) then raise (ValueError msg_signal_array)
      else mret "signal"
  | None =>
      match src !! "assign" with
      | Some v =>
          if negb (is_list v) then raise (ValueError msg_assign_array)
          else mret "assign"
      | None =>
          match src !! "reg" with
          | Some _ => mret "reg"
          | None => raise (ValueError msg_missing)
          end
      end
  end.

(** [_extract_attributes(self)]. *)
Definition _extract_attributes : M unit :=
  src ← getattr "source" source;
  set_config (dict_get src "config" empty_dict);;
  src ← getattr "source" source;
  set_head (dict_get src "head" empty_dict);;
  src ← getattr "source" source;
  set_foot (dict_get src "foot" empty_dict).

(** [__init__(self, input_data)]. *)
Definition __init__ (env : Env) (input_data : string) : M unit :=
  set_source ∅;;
  set_diagram_type EmptyString;;
  set_config empty_dict;;
  set_head empty_dict;;
  set_foot empty_dict;;
  content ← call (_get_content env input_data);
  parsed ← call (_parse_json5 env content);
  set_source parsed;;
  ty ← _determine_diagram_type;
  set_diagram_type ty;;
  _extract_attributes.

(** ** The constructor call

    The store of [WaveDromProject] objects is a list; the address of an
    object is its index.  [WaveDromProject(input_data)] allocates a new
    object, runs [__init__] on it and returns its address; when
    [__init__] raises, the exception is all the caller gets. *)
Definition WaveDromProject (env : Env) (input_data : string) (heap : list Instance)
  : result nat * list Instance :=
  match __init__ env input_data object_new with
  | Normal _ self => (Ok (List.length heap), (heap ++ [self])%list)
  | Raised e self => (Err e, (heap ++ [self])%list)
  end.

(** ** Vocabulary of the statements *)

(** The input looks like a path: it ends in one of the two
    accepted suffixes. *)
Definition looks_like_path (input_data : string) : Prop :=
  (∃ p, input_data = p ++ ".json5") ∨ (∃ p, input_data = p ++ ".json").

(** The input resolves to text that parses to the dict [doc]. *)
Definition parses_to (env : Env) (input_data : string) (doc : gmap string value) : Prop :=
  ∃ content, _get_content env input_data = Ok content
             ∧ _parse_json5 env content = Ok doc.

(** The object a successful construction leaves for document [doc] and
    diagram type [ty]. *)
Definition project_of (doc : gmap string value) (ty : string) : Instance :=
  {| source := Some doc;
     diagram_type := Some ty;
     config := Some (dict_get doc "config" empty_dict);
     head := Some (dict_get doc "head" empty_dict);
     foot := Some (dict_get doc "foot" empty_dict) |}.

(** The object state after the five initial assignments of [__init__]. *)
Definition initialised : Instance :=
  {| source := Some ∅; diagram_type := Some EmptyString;
     config := Some empty_dict; head := Some empty_dict;
     foot := Some empty_dict |}.

(** The object state once [self.source] holds the parsed document and
    nothing else has been assigned again. *)
Definition loaded (doc : gmap string value) : Instance :=
  {| source := Some doc; diagram_type := Some EmptyString;
     config := Some empty_dict; head := Some empty_dict;
     foot := Some empty_dict |}.

(** All five attributes exist. *)
Definition all_set (p : Instance) : Prop :=
  is_Some (source p) ∧ is_Some (diagram_type p) ∧ is_Some (config p)
  ∧ is_Some (head p) ∧ is_Some (foot p).

(** An attribute copied from the document: the stored value when the
    key is present, [{}] when it is absent. *)
Definition copied (doc : gmap string value) (key : string) (attr : option value) : Prop :=
  match doc !! key with
  | Some v => attr = Some v
  | None => attr = Some empty_dict
  end.

(** The four error kinds of the error table, and the kind a caller can
    read off an exception from its class and the tag that starts its
    message. *)
Inductive ErrorKind : Type := NotFound | InvalidInput | ParseError | SemanticError.

Definition kind_of (e : exn) : option ErrorKind :=
  match e with
  | FileNotFoundError _ => Some NotFound
  | ValueError m =>
      if startswith m "[Parse Error]: " then Some ParseError
      else if startswith m "[Semantic]: " then Some SemanticError
      else if startswith m "Error reading file " then Some InvalidInput
      else None
  | AttributeError _ => None
  end.

(** The error table read as a function: which trigger, if any, applies
    to a piece of text and to an input. *)
Definition text_trigger (env : Env) (text : string) : option ErrorKind :=
  match loads env text with
  | Raises _ => Some ParseError
  | Returns (VDict doc) =>
      match doc !! "signal", doc !! "assign", doc !! "reg" with
      | Some v, _, _ => if is_list v then None else Some SemanticError
      | None, Some v, _ => if is_list v then None else Some SemanticError
      | None, None, Some _ => None
      | None, None, None => Some SemanticError
      end
  | Returns _ => Some SemanticError
  end.

Definition trigger (env : Env) (input_data : string) : option ErrorKind :=
  if endswith input_data ".json5" || endswith input_data ".json" then
    if isfile env input_data then
      match read_text env input_data with
      | Raises _ => Some InvalidInput
      | Returns text => text_trigger env text
      end
    else Some NotFound
  else text_trigger env input_data.

(** The class in which each kind of the table is raised. *)
Definition class_for (k : ErrorKind) : exn_class :=
  match k with
  | NotFound => CFileNotFoundError
  | InvalidInput | ParseError | SemanticError => CValueError
  end.

(** ** A small concrete environment

    Two files and a parser given by a table of the texts it accepts;
    every other text is a syntax error.  The texts are those of
    [test_step1.py] and a few more. *)

Definition demo_files : gmap string (ext string) :=
  list_to_map
    [ ("diagram.json5", Returns "{ reg: 'anything' }");
      ("locked.json", Raises "[Errno 13] Permission denied: 'locked.json'") ].

Definition doc_test : gmap string value :=
  list_to_map
    [("signal",
      VList [VDict (list_to_map [("name", VStr "test"); ("wave", VStr "01")])])].

Definition doc_signal_reg : gmap string value :=
  list_to_map [("signal", VList []); ("reg", VList [])].

Definition doc_signal_str : gmap string value :=
  list_to_map [("signal", VStr "not an array")].

Definition doc_signal_str_others : gmap string value :=
  list_to_map [("signal", VStr "x"); ("assign", VList []); ("reg", VList [])].

Definition doc_assign_int : gmap string value :=
  list_to_map [("assign", VInt 5); ("reg", VList [])].

Definition doc_assign : gmap string value :=
  list_to_map [("assign", VList [])].

Definition doc_reg : gmap string value :=
  list_to_map [("reg", VStr "anything")].

Definition doc_config : gmap string value :=
  list_to_map [("config", VDict ∅)].

Definition doc_attrs : gmap string value :=
  list_to_map
    [("signal", VList []);
     ("config", VDict (list_to_map [("hscale", VInt 2)]));
     ("head", VInt 7)].

Definition doc_signal : gmap string value :=
  list_to_map [("signal", VList [])].

Definition demo_grammar : gmap string value :=
  list_to_map
    [ ("{ signal: [ { name: 'test', wave: '01' } ] }", VDict doc_test);
      ("{ signal: [], reg: [] }", VDict doc_signal_reg);
      ("{ signal: 'not an array' }", VDict doc_signal_str);
      ("{ signal: 'x', assign: [], reg: [] }", VDict doc_signal_str_others);
      ("{ assign: 5, reg: [] }", VDict doc_assign_int);
      ("{ assign: [] }", VDict doc_assign);
      ("{ reg: 'anything' }", VDict doc_reg);
      ("{ config: {} }", VDict doc_config);
      ("[1, 2]", VList [VInt 1; VInt 2]);
      ("{ signal: [], config: { hscale: 2 }, head: 7 }", VDict doc_attrs);
      ("{ signal: [] } // see a.json", VDict doc_signal) ].

Definition demo_env : Env :=
  {| isfile path := match demo_files !! path with Some _ => true | None => false end;
     read_text path := default (Raises "[Errno 2] No such file or directory")
                               (demo_files !! path);
     loads content :=
       match demo_grammar !! content with
       | Some v => Returns v
       | None => Raises "syntax error"
       end |}.

(** ** The object a caller holds

    [project = WaveDromProject(input_data)]: the object bound to
    [project], or the exception.  The store plays no part in it. *)
Definition constructed (env : Env) (input_data : string) : result Instance :=
  match __init__ env input_data object_new with
  | Normal _ self => Ok self
  | Raised e _ => Err e
  end.

(** The shape of a document as far as the classification goes: for a
    key, whether it is present and, if so, whether its value is a
    list. *)
Definition key_shape (doc : gmap string value) (key : string) : option bool :=
  is_list <$> doc !! key.

(** The diagram type [ty] is the one the keys of [doc] give. *)
Definition classified (doc : gmap string value) (ty : string) : Prop :=
  (ty = "signal" ∧ ∃ items, doc !! "signal" = Some (VList items))
  ∨ (ty = "assign" ∧ doc !! "signal" = None
     ∧ ∃ items, doc !! "assign" = Some (VList items))
  ∨ (ty = "reg" ∧ doc !! "signal" = None ∧ doc !! "assign" = None
     ∧ is_Some (doc !! "reg")).

(** An environment with one file, whose text ends in a comment that
    ends in [.json]. *)
Definition tail_env : Env :=
  {| isfile path := String.eqb path "a.json5";
     read_text path :=
       if String.eqb path "a.json5" then Returns "{ signal: [] } // see a.json"
       else Raises "[Errno 2] No such file or directory";
     loads content :=
       if String.eqb content "{ signal: [] } // see a.json"
       then Returns (VDict doc_signal)
       else Raises "syntax error" |}.

(** ** The test script [test_step1.py]

    Each test function runs its body in a [try] whose [except Exception]
    clause returns [False]; the body is modelled in the option monad,
    [None] standing for any exception, and what the function prints is
    left out.  An expression inside a [print] is still evaluated, since
    it can raise. *)

Definition nl : string := String "010"%char EmptyString.

(** [len(v)]; [None] is the [TypeError] of an object without length. *)
Definition py_len (v : value) : option nat :=
  match v with
  | VList items => Some (List.length items)
  | VDict entries => Some (size entries)
  | VStr s => Some (String.length s)
  | _ => None
  end.

(** [v[i]] for an index [i >= 0]: an item of a list, a character of a
    string; [None] is [IndexError], the [KeyError] of a dict (whose keys
    are strings) or [TypeError]. *)
Definition getitem_int (v : value) (i : nat) : option value :=
  match v with
  | VList items => items !! i
  | VStr s => (λ c, VStr (String c EmptyString)) <$> String.get i s
  | _ => None
  end.

(** [v[k]] for a string [k]: only a dict can be indexed by a string. *)
Definition getitem_str (v : value) (k : string) : option value :=
  match v with
  | VDict entries => entries !! k
  | _ => None
  end.

(** [v.get(k)], after [isinstance(v, dict)] has been asserted. *)
Definition method_get (v : value) (k : string) : option value :=
  match v with
  | VDict entries => Some (dict_get entries k VNone)
  | _ => None
  end.

(** [v == s] for a string literal [s]. *)
Definition eq_str (v : value) (s : string) : bool :=
  match v with
  | VStr t => String.eqb t s
  | _ => false
  end.

(** [f == n] for a float and an int: the comparison is exact. *)
Definition float_eq_int (f : spec_float) (n : Z) : bool :=
  match f with
  | S754_zero _ => (n =? 0)%Z
  | S754_finite s m e =>
      let z := if s then Z.neg m else Z.pos m in
      if (0 <=? e)%Z then (z * 2 ^ e =? n)%Z else (z =? n * 2 ^ (- e))%Z
  | _ => false
  end.

(** [v == n] for an int literal [n]; a bool is the int 0 or 1. *)
Definition eq_int (v : value) (n : Z) : bool :=
  match v with
  | VBool b => (Z.b2z b =? n)%Z
  | VInt m => (m =? n)%Z
  | VFloat f => float_eq_int f n
  | _ => false
  end.

(** [k in d]. *)
Definition contains (d : gmap string value) (k : string) : bool :=
  match d !! k with Some _ => true | None => false end.

(** [assert b]. *)
Definition py_assert (b : bool) : option unit :=
  if b then Some tt else None.

(** The constructor call inside a [try]. *)
Definition attempt {A : Type} (r : result A) : option A :=
  match r with Ok a => Some a | Err _ => None end.

(** [try: body; except Exception: return False] and then [return True]. *)
Definition passes (body : option unit) : bool :=
  match body with Some _ => true | None => false end.

Definition signal_file_path : string := "../wavedrom/test/signal-step4.json5".
Definition reg_file_path : string := "../wavedrom/test/reg-vl.json5".

(** [test_signal_file()]. *)
Definition test_signal_file (env : Env) : bool :=
  passes (
    project ← attempt (constructed env signal_file_path);
    ty ← diagram_type project;
    py_assert (String.eqb ty "signal");;
    src ← source project;
    py_assert (contains src "signal");;
    src ← source project;
    sig ← src !! "signal";
    _ ← py_len sig;
    Some tt).

(** [test_reg_file()]. *)
Definition test_reg_file (env : Env) : bool :=
  passes (
    project ← attempt (constructed env reg_file_path);
    ty ← diagram_type project;
    py_assert (String.eqb ty "reg");;
    src ← source project;
    py_assert (contains src "reg");;
    src ← source project;
    reg ← src !! "reg";
    _ ← py_len reg;
    Some tt).

Definition raw_string : string := "{ signal: [ { name: 'test', wave: '01' } ] }".

(** [test_raw_string()]. *)
Definition test_raw_string (env : Env) : bool :=
  passes (
    project ← attempt (constructed env raw_string);
    ty ← diagram_type project;
    py_assert (String.eqb ty "signal");;
    src ← source project;
    py_assert (contains src "signal");;
    sig ← src !! "signal";
    n ← py_len sig;
    py_assert (n =? 1)%nat;;
    first ← getitem_int sig 0;
    name ← getitem_str first "name";
    py_assert (eq_str name "test");;
    wave ← getitem_str first "wave";
    py_assert (eq_str wave "01");;
    Some tt).

(** The entries of [test_cases] in [test_invalid_inputs]. *)
Record test_case : Type := {
  tc_name : string;
  tc_input : string;
  tc_expected_error : exn_class
}.

Definition input_missing_keys : string :=
  "{ " ++ dq ++ "config" ++ dq ++ ": {} }".

Definition input_non_object : string :=
  "[" ++ dq ++ "not" ++ dq ++ ", " ++ dq ++ "an" ++ dq ++ ", "
  ++ dq ++ "object" ++ dq ++ "]".

Definition input_bad_signal : string :=
  "{ " ++ dq ++ "signal" ++ dq ++ ": " ++ dq ++ "not an array" ++ dq ++ " }".

Definition test_cases : list test_case :=
  [ {| tc_name := "Non-existent file";
       tc_input := "non_existent_file.json5";
       tc_expected_error := CFileNotFoundError |};
    {| tc_name := "Invalid JSON5";
       tc_input := "{ invalid json }";
       tc_expected_error := CValueError |};
    {| tc_name := "Missing required keys";
       tc_input := input_missing_keys;
       tc_expected_error := CValueError |};
    {| tc_name := "Non-object root";
       tc_input := input_non_object;
       tc_expected_error := CValueError |};
    {| tc_name := "Invalid signal format";
       tc_input := input_bad_signal;
       tc_expected_error := CValueError |} ].

(** [except cls]: none of the three classes is a subclass of another. *)
Definition caught_by (e : exn) (cls : exn_class) : bool :=
  match class_of e, cls with
  | CFileNotFoundError, CFileNotFoundError
  | CValueError, CValueError
  | CAttributeError, CAttributeError => true
  | _, _ => false
  end.

(** One turn of the loop of [test_invalid_inputs]: the new value of
    [all_passed]. *)
Definition run_case (env : Env) (all_passed : bool) (tc : test_case) : bool :=
  match constructed env (tc_input tc) with
  | Ok _ => false
  | Err e => if caught_by e (tc_expected_error tc) then all_passed else false
  end.

(** [test_invalid_inputs()]. *)
Definition test_invalid_inputs (env : Env) : bool :=
  fold_left (run_case env) test_cases true.

Definition attributes_raw_string : string :=
  "{ " ++ nl
  ++ "        signal: [ { name: 'test', wave: '01' } ]," ++ nl
  ++ "        config: { hscale: 2 }," ++ nl
  ++ "        head: { text: 'Header' }," ++ nl
  ++ "        foot: { text: 'Footer' }" ++ nl
  ++ "    }".

(** [test_attribute_extraction()]. *)
Definition test_attribute_extraction (env : Env) : bool :=
  passes (
    project ← attempt (constructed env attributes_raw_string);
    c ← config project;
    py_assert (is_dict c);;
    h ← head project;
    py_assert (is_dict h);;
    f ← foot project;
    py_assert (is_dict f);;
    hscale ← method_get c "hscale";
    py_assert (eq_int hscale 2);;
    text ← method_get h "text";
    py_assert (eq_str text "Header");;
    text ← method_get f "text";
    py_assert (eq_str text "Footer");;
    Some tt).

(** [main()] of the test script: the exit status. *)
Definition main (env : Env) : Z :=
  let tests := [test_signal_file; test_reg_file; test_raw_string;
                test_invalid_inputs; test_attribute_extraction] in
  let passed :=
    fold_left (λ passed test, if test env : bool then (passed + 1)%Z else passed)
              tests 0%Z in
  if (passed =? Z.of_nat (List.length tests))%Z then 0%Z else 1%Z.

(** An environment in which the test files exist, and one in which the
    register file holds a number under [reg]. *)
Definition suite_doc_signal : gmap string value :=
  list_to_map
    [("signal",
      VList [VDict (list_to_map [("name", VStr "test"); ("wave", VStr "01")])])].

Definition suite_doc_attributes : gmap string value :=
  list_to_map
    [("signal",
      VList [VDict (list_to_map [("name", VStr "test"); ("wave", VStr "01")])]);
     ("config", VDict (list_to_map [("hscale", VInt 2)]));
     ("head", VDict (list_to_map [("text", VStr "Header")]));
     ("foot", VDict (list_to_map [("text", VStr "Footer")]))].

Definition suite_doc_reg (v : value) : gmap string value :=
  list_to_map [("reg", v)].

Definition suite_env (reg : value) : Env :=
  {| isfile path :=
       String.eqb path signal_file_path || String.eqb path reg_file_path;
     read_text path :=
       if String.eqb path signal_file_path then Returns "{ signal: [] }"
       else if String.eqb path reg_file_path then Returns "{ reg: ... }"
       else Raises "[Errno 2] No such file or directory";
     loads content :=
       if String.eqb content "{ signal: [] }" then Returns (VDict doc_signal)
       else if String.eqb content "{ reg: ... }" then Returns (VDict (suite_doc_reg reg))
       else if String.eqb content raw_string then Returns (VDict suite_doc_signal)
       else if String.eqb content attributes_raw_string
            then Returns (VDict suite_doc_attributes)
       else if String.eqb content input_missing_keys
            then Returns (VDict doc_config)
       else if String.eqb content input_bad_signal
            then Returns (VDict doc_signal_str)
       else if String.eqb content input_non_object
            then Returns (VList [VStr "not"; VStr "an"; VStr "object"])
       else Raises "syntax error" |}.

(** * Properties *)

(** ** Strings: [endswith] is the suffix relation *)

Lemma substring_whole (s : string) :
  substring 0 (String.length s) s = s.
Proof. induction s as [|c s IH]; simpl; [done | by rewrite IH]. Qed.

Lemma length_append (p s : string) :
  String.length (p ++ s) = (String.length p + String.length s)%nat.
Proof. induction p as [|c p IH]; simpl; [done | by rewrite IH]. Qed.

Lemma substring_skip (p s : string) (n : nat) :
  substring (String.length p) n (p ++ s) = substring 0 n s.
Proof. induction p as [|c p IH]; simpl; [done | exact IH]. Qed.

Lemma substring_split (s : string) (n : nat) :
  (n ≤ String.length s)%nat →
  s = substring 0 n s ++ substring n (String.length s - n) s.
Proof.
  revert n. induction s as [|c s IH]; intros [|n] Hn; simpl in *.
  - done.
  - lia.
  - by rewrite substring_whole.
  - change (String c s =
            String c (substring 0 n s ++ substring n (String.length s - n) s)).
    f_equal. apply IH. lia.
Qed.

(** [endswith s suffix] holds exactly when [suffix] ends [s]. *)
Lemma endswith_spec (s suffix : string) :
  endswith s suffix = true ↔ ∃ p, s = p ++ suffix.
Proof.
  unfold endswith. rewrite andb_true_iff, Nat.leb_le, String.eqb_eq. split.
  - intros [Hle Hsub].
    exists (substring 0 (String.length s - String.length suffix) s).
    set (k := (String.length s - String.length suffix)%nat) in *.
    rewrite (substring_split s k) at 1 by lia.
    f_equal. replace (String.length s - k)%nat with (String.length suffix) by lia.
    exact Hsub.
  - intros [p ->]. rewrite length_append. split; [lia |].
    replace (String.length p + String.length suffix - String.length suffix)%nat
      with (String.length p) by lia.
    by rewrite substring_skip, substring_whole.
Qed.

Lemma endswith_false (s suffix : string) :
  endswith s suffix = false ↔ ¬ ∃ p, s = p ++ suffix.
Proof. rewrite <- endswith_spec. by destruct (endswith s suffix). Qed.

Lemma looks_like_path_test (input_data : string) :
  looks_like_path input_data ↔
  endswith input_data ".json5" || endswith input_data ".json" = true.
Proof.
  unfold looks_like_path. rewrite orb_true_iff, !endswith_spec. done.
Qed.

Lemma not_looks_like_path_test (input_data : string) :
  ¬ looks_like_path input_data ↔
  endswith input_data ".json5" || endswith input_data ".json" = false.
Proof.
  rewrite looks_like_path_test.
  by destruct (endswith input_data ".json5" || endswith input_data ".json").
Qed.

(** ** How [__init__] runs *)

(** Unfold the monad and the attribute accessors. *)
Ltac run :=
  cbv [mbind mret M_bind M_ret raise call getattr
       set_source set_diagram_type set_config set_head set_foot
       source diagram_type config head foot].

(** [_determine_diagram_type] reads [self.source] only and assigns
    nothing. *)
Lemma determine_reads_source (self1 self2 : Instance) :
  source self1 = source self2 →
  match _determine_diagram_type self1, _determine_diagram_type self2 with
  | Normal ty1 s1, Normal ty2 s2 => ty1 = ty2 ∧ s1 = self1 ∧ s2 = self2
  | Raised e1 s1, Raised e2 s2 => e1 = e2 ∧ s1 = self1 ∧ s2 = self2
  | _, _ => False
  end.
Proof.
  intros Hsrc. unfold _determine_diagram_type, mbind, M_bind, getattr.
  rewrite Hsrc. destruct (source self2) as [doc|]; [| done].
  destruct (doc !! "signal") as [v|].
  { destruct (negb (is_list v)); run; done. }
  destruct (doc !! "assign") as [v|].
  { destruct (negb (is_list v)); run; done. }
  destruct (doc !! "reg"); run; done.
Qed.

(** The three ways the type is returned and the three ways the check
    raises, on an object whose [source] is [doc]. *)
Lemma determine_on_source (self : Instance) (doc : gmap string value) :
  source self = Some doc →
  _determine_diagram_type self =
    match doc !! "signal" with
    | Some v =>
        if is_list v then Normal "signal" self
        else Raised (ValueError msg_signal_array) self
    | None =>
        match doc !! "assign" with
        | Some v =>
            if is_list v then Normal "assign" self
            else Raised (ValueError msg_assign_array) self
        | None =>
            match doc !! "reg" with
            | Some _ => Normal "reg" self
            | None => Raised (ValueError msg_missing) self
            end
        end
    end.
Proof.
  intros Hsrc. unfold _determine_diagram_type, mbind, M_bind, getattr.
  rewrite Hsrc.
  destruct (doc !! "signal") as [v|]; [by destruct (is_list v) |].
  destruct (doc !! "assign") as [v|]; [by destruct (is_list v) |].
  by destruct (doc !! "reg").
Qed.

(** [_extract_attributes] on an object whose [source] is [doc]. *)
Lemma extract_on_source (self : Instance) (doc : gmap string value) :
  source self = Some doc →
  _extract_attributes self =
    Normal tt {| source := Some doc; diagram_type := diagram_type self;
                 config := Some (dict_get doc "config" empty_dict);
                 head := Some (dict_get doc "head" empty_dict);
                 foot := Some (dict_get doc "foot" empty_dict) |}.
Proof.
  intros Hsrc. unfold _extract_attributes. run.
  destruct self as [src ty c h f]; simpl in *. by subst src.
Qed.

(** A failure of the resolver ends [__init__] at once. *)
Lemma init_resolve_error (env : Env) (input_data : string) (self : Instance) (e : exn) :
  _get_content env input_data = Err e →
  __init__ env input_data self = Raised e initialised.
Proof. intros H. unfold __init__. run. by rewrite H. Qed.

(** So does a failure of the parser adapter. *)
Lemma init_parse_error (env : Env) (input_data content : string)
    (self : Instance) (e : exn) :
  _get_content env input_data = Ok content →
  _parse_json5 env content = Err e →
  __init__ env input_data self = Raised e initialised.
Proof. intros H1 H2. unfold __init__. run. by rewrite H1, H2. Qed.

(** Once the document is parsed, the outcome is that of the
    classification. *)
Lemma init_parsed (env : Env) (input_data : string) (self : Instance)
    (doc : gmap string value) :
  parses_to env input_data doc →
  __init__ env input_data self =
    match _determine_diagram_type (loaded doc) with
    | Normal ty _ => Normal tt (project_of doc ty)
    | Raised e _ => Raised e (loaded doc)
    end.
Proof.
  intros (content & H1 & H2). unfold __init__.
  cbv [mbind mret M_bind M_ret call raise
       set_source set_diagram_type set_config set_head set_foot].
  rewrite H1, H2. cbn [source diagram_type config head foot].
  fold (loaded doc).
  pose proof (determine_on_source (loaded doc) doc eq_refl) as Hd.
  rewrite Hd.
  destruct (doc !! "signal") as [v|]; [destruct (is_list v) |];
    [| done | destruct (doc !! "assign") as [v|]; [destruct (is_list v) |];
              [| done | destruct (doc !! "reg"); [| done]]];
    cbn [source diagram_type config head foot loaded];
    by rewrite extract_on_source with (doc := doc).
Qed.

(** [__init__] never looks at the state in which it finds the object. *)
Lemma init_any_self (env : Env) (input_data : string) (self1 self2 : Instance) :
  __init__ env input_data self1 = __init__ env input_data self2.
Proof.
  destruct (_get_content env input_data) as [content|e] eqn:H1.
  2: { by rewrite !(init_resolve_error _ _ _ e H1). }
  destruct (_parse_json5 env content) as [doc|e] eqn:H2.
  2: { by rewrite !(init_parse_error _ _ content _ e H1 H2). }
  assert (parses_to env input_data doc) as Hp by (by exists content).
  by rewrite !(init_parsed _ _ _ doc Hp).
Qed.

(** A document has one parse. *)
Lemma parses_to_fun (env : Env) (input_data : string) (doc1 doc2 : gmap string value) :
  parses_to env input_data doc1 → parses_to env input_data doc2 → doc1 = doc2.
Proof.
  intros (c1 & H1 & P1) (c2 & H2 & P2).
  rewrite H1 in H2. injection H2 as <-. rewrite P1 in P2. by injection P2.
Qed.

(** ** The constructor call *)

Lemma construct_resolve_error (env : Env) (input_data : string)
    (heap : list Instance) (e : exn) :
  _get_content env input_data = Err e →
  WaveDromProject env input_data heap = (Err e, (heap ++ [initialised])%list).
Proof.
  intros H. unfold WaveDromProject. by rewrite (init_resolve_error _ _ _ e H).
Qed.

Lemma construct_parse_error (env : Env) (input_data content : string)
    (heap : list Instance) (e : exn) :
  _get_content env input_data = Ok content →
  _parse_json5 env content = Err e →
  WaveDromProject env input_data heap = (Err e, (heap ++ [initialised])%list).
Proof.
  intros H1 H2. unfold WaveDromProject.
  by rewrite (init_parse_error _ _ content _ e H1 H2).
Qed.

Lemma construct_classified (env : Env) (input_data : string)
    (heap : list Instance) (doc : gmap string value) (ty : string) :
  parses_to env input_data doc →
  _determine_diagram_type (loaded doc) = Normal ty (loaded doc) →
  WaveDromProject env input_data heap
  = (Ok (List.length heap), (heap ++ [project_of doc ty])%list).
Proof.
  intros Hp Hd. unfold WaveDromProject. by rewrite (init_parsed _ _ _ doc Hp), Hd.
Qed.

Lemma construct_rejected (env : Env) (input_data : string)
    (heap : list Instance) (doc : gmap string value) (e : exn) :
  parses_to env input_data doc →
  _determine_diagram_type (loaded doc) = Raised e (loaded doc) →
  WaveDromProject env input_data heap = (Err e, (heap ++ [loaded doc])%list).
Proof.
  intros Hp Hd. unfold WaveDromProject. by rewrite (init_parsed _ _ _ doc Hp), Hd.
Qed.

(** What a successful construction went through. *)
Lemma construct_ok_inv (env : Env) (input_data : string)
    (heap heap' : list Instance) (a : nat) :
  WaveDromProject env input_data heap = (Ok a, heap') →
  ∃ doc ty,
    parses_to env input_data doc
    ∧ _determine_diagram_type (loaded doc) = Normal ty (loaded doc)
    ∧ a = List.length heap
    ∧ heap' = (heap ++ [project_of doc ty])%list.
Proof.
  intros HW.
  destruct (_get_content env input_data) as [content|e] eqn:H1.
  2: { rewrite (construct_resolve_error _ _ _ e H1) in HW. discriminate. }
  destruct (_parse_json5 env content) as [doc|e] eqn:H2.
  2: { rewrite (construct_parse_error _ _ content _ e H1 H2) in HW. discriminate. }
  assert (parses_to env input_data doc) as Hp by (by exists content).
  pose proof (determine_reads_source (loaded doc) (loaded doc) eq_refl) as Hd.
  destruct (_determine_diagram_type (loaded doc)) as [ty s|e s] eqn:Hty.
  - destruct Hd as (_ & -> & _).
    rewrite (construct_classified _ _ _ doc ty Hp Hty) in HW.
    injection HW as <- <-. by exists doc, ty.
  - destruct Hd as (_ & -> & _).
    rewrite (construct_rejected _ _ _ doc e Hp Hty) in HW. discriminate.
Qed.

(** The object at the address a construction returns. *)
Lemma lookup_new_object (heap : list Instance) (p : Instance) :
  (heap ++ [p])%list !! List.length heap = Some p.
Proof. rewrite lookup_app_r by lia. by rewrite Nat.sub_diag. Qed.

(** ** Classification *)

(** C1. Classification follows the priority [signal], [assign], [reg].
    For every input that parses to a dict [doc]: when [signal] is a key
    of [doc], the construction is decided by the value under [signal]
    alone, whatever else [doc] holds: the diagram type is [signal] when
    that value is a list, and the only failure is the one about
    [signal]; [assign] decides in the same way only when [signal] is
    absent; [reg] gives type [reg] only when both are absent; and when
    none of the three is a key the construction raises the [ValueError]
    tagged [[Semantic]] whose message names [signal], [assign] and
    [reg]. *)
Theorem classification_priority (env : Env) (input_data : string)
    (heap : list Instance) (doc : gmap string value) :
  parses_to env input_data doc →
  let r := WaveDromProject env input_data heap in
  match doc !! "signal" with
  | Some v =>
      if is_list v
      then r = (Ok (List.length heap), (heap ++ [project_of doc "signal"])%list)
      else fst r = Err (ValueError msg_signal_array)
  | None =>
      match doc !! "assign" with
      | Some v =>
          if is_list v
          then r = (Ok (List.length heap), (heap ++ [project_of doc "assign"])%list)
          else fst r = Err (ValueError msg_assign_array)
      | None =>
          match doc !! "reg" with
          | Some _ =>
              r = (Ok (List.length heap), (heap ++ [project_of doc "reg"])%list)
          | None =>
              fst r = Err (ValueError msg_missing)
              ∧ kind_of (ValueError msg_missing) = Some SemanticError
              ∧ ∃ s1 s2 s3 s4,
                  msg_missing = s1 ++ "signal" ++ s2 ++ "assign" ++ s3 ++ "reg" ++ s4
          end
      end
  end.
Proof.
  intros Hp r. subst r.
  pose proof (determine_on_source (loaded doc) doc eq_refl) as Hd.
  destruct (doc !! "signal") as [v|].
  { destruct (is_list v).
    - by apply construct_classified.
    - by rewrite (construct_rejected _ _ _ doc _ Hp Hd). }
  destruct (doc !! "assign") as [v|].
  { destruct (is_list v).
    - by apply construct_classified.
    - by rewrite (construct_rejected _ _ _ doc _ Hp Hd). }
  destruct (doc !! "reg").
  { by apply construct_classified. }
  rewrite (construct_rejected _ _ _ doc _ Hp Hd). split; [done |].
  split; [reflexivity |].
  exists ("[Semantic]: " ++ dq), (":[...]" ++ dq ++ ", " ++ dq),
         (":[...]" ++ dq ++ ", or " ++ dq),
         (":[...]" ++ dq ++ " property is missing inside the root Object").
  reflexivity.
Qed.

(** A document with both [signal] and [reg] is a [signal] diagram. *)
Lemma classification_priority_witness :
  WaveDromProject demo_env "{ signal: [], reg: [] }" []
  = (Ok 0%nat, [project_of doc_signal_reg "signal"]).
Proof.
  refine (classification_priority demo_env "{ signal: [], reg: [] }" []
            doc_signal_reg _).
  exists "{ signal: [], reg: [] }". split; reflexivity.
Defined.

(** C2. The shape check is made on the key that decided the
    classification and on no other.  For every input that parses to a
    dict [doc]: when [signal] is a key whose value is not a list, the
    construction raises the [ValueError] tagged [[Semantic]] that says
    [signal] has to be an array, whatever [doc] holds under [assign]
    and [reg]; when [signal] is absent and [assign] is a key whose
    value is not a list, it raises the one that says [assign] has to
    be an array. *)
Theorem shape_validation (env : Env) (input_data : string)
    (heap : list Instance) (doc : gmap string value) (v : value) :
  parses_to env input_data doc →
  is_list v = false →
  (doc !! "signal" = Some v →
     fst (WaveDromProject env input_data heap) = Err (ValueError msg_signal_array)
     ∧ kind_of (ValueError msg_signal_array) = Some SemanticError
     ∧ ∃ s, msg_signal_array
              = "[Semantic]: " ++ dq ++ "signal" ++ dq ++ " object has to be an Array" ++ s)
  ∧ (doc !! "signal" = None → doc !! "assign" = Some v →
     fst (WaveDromProject env input_data heap) = Err (ValueError msg_assign_array)
     ∧ kind_of (ValueError msg_assign_array) = Some SemanticError
     ∧ ∃ s, msg_assign_array
              = "[Semantic]: " ++ dq ++ "assign" ++ dq ++ " object has to be an Array" ++ s).
Proof.
  intros Hp Hv.
  pose proof (determine_on_source (loaded doc) doc eq_refl) as Hd.
  split.
  - intros Hs. rewrite Hs, Hv in Hd.
    rewrite (construct_rejected _ _ _ doc _ Hp Hd).
    split; [done |]. split; [reflexivity |].
    by exists (" " ++ dq ++ "signal:[]" ++ dq).
  - intros Hs Ha. rewrite Hs, Ha, Hv in Hd.
    rewrite (construct_rejected _ _ _ doc _ Hp Hd).
    split; [done |]. split; [reflexivity |].
    by exists (" " ++ dq ++ "assign:[]" ++ dq).
Qed.

(** A string under [signal] is rejected although [assign] and [reg]
    hold lists; a number under [assign] is rejected although [reg]
    holds a list. *)
Lemma shape_validation_witness :
  fst (WaveDromProject demo_env "{ signal: 'x', assign: [], reg: [] }" [])
    = Err (ValueError msg_signal_array)
  ∧ fst (WaveDromProject demo_env "{ assign: 5, reg: [] }" [])
    = Err (ValueError msg_assign_array).
Proof.
  split.
  - refine (proj1 (proj1 (shape_validation demo_env
                            "{ signal: 'x', assign: [], reg: [] }" []
                            doc_signal_str_others (VStr "x") _ _) _)).
    + exists "{ signal: 'x', assign: [], reg: [] }". split; reflexivity.
    + reflexivity.
    + reflexivity.
  - refine (proj1 (proj2 (shape_validation demo_env
                            "{ assign: 5, reg: [] }" []
                            doc_assign_int (VInt 5) _ _) _ _)).
    + exists "{ assign: 5, reg: [] }". split; reflexivity.
    + reflexivity.
    + reflexivity.
    + reflexivity.
Defined.

(** C6. A document whose first recognised key is [reg] is accepted
    with type [reg] whatever the value under [reg] is.  For every input
    that parses to a dict [doc] in which [signal] and [assign] are
    absent and [reg] is a key with any value [v], the construction
    returns a new object of diagram type [reg]. *)
Theorem reg_unvalidated (env : Env) (input_data : string)
    (heap : list Instance) (doc : gmap string value) (v : value) :
  parses_to env input_data doc →
  doc !! "signal" = None →
  doc !! "assign" = None →
  doc !! "reg" = Some v →
  WaveDromProject env input_data heap
  = (Ok (List.length heap), (heap ++ [project_of doc "reg"])%list)
  ∧ diagram_type (project_of doc "reg") = Some "reg".
Proof.
  intros Hp Hs Ha Hr. split; [| done].
  apply construct_classified; [done |].
  rewrite (determine_on_source (loaded doc) doc eq_refl).
  by rewrite Hs, Ha, Hr.
Qed.

(** [{ reg: 'anything' }], a string under [reg], is a [reg] diagram. *)
Lemma reg_unvalidated_witness :
  WaveDromProject demo_env "{ reg: 'anything' }" []
  = (Ok 0%nat, [project_of doc_reg "reg"])
  ∧ diagram_type (project_of doc_reg "reg") = Some "reg".
Proof.
  refine (reg_unvalidated demo_env "{ reg: 'anything' }" [] doc_reg
            (VStr "anything") _ _ _ _).
  - exists "{ reg: 'anything' }". split; reflexivity.
  - reflexivity.
  - reflexivity.
  - reflexivity.
Defined.

(** ** Content resolution *)

(** C3. An input that ends in [.json5] or [.json] and names no existing
    file makes the construction raise [FileNotFoundError] with a
    message that ends in the input; the parser is not consulted, so the
    same holds when the input is valid document text.  An input that
    ends in neither suffix is the text to parse as it stands: the
    resolver returns it in every environment, and the whole
    construction is the same in any two environments with the same
    parser, whatever their files are. *)
Theorem content_resolution (env : Env) (input_data : string) (heap : list Instance) :
  (looks_like_path input_data →
   isfile env input_data = false →
   fst (WaveDromProject env input_data heap)
     = Err (FileNotFoundError ("File not found: " ++ input_data)))
  ∧ (¬ looks_like_path input_data →
     _get_content env input_data = Ok input_data
     ∧ ∀ env', loads env' = loads env →
         WaveDromProject env' input_data heap = WaveDromProject env input_data heap).
Proof.
  split.
  - intros Hpath Hfile. apply looks_like_path_test in Hpath.
    assert (_get_content env input_data
            = Err (FileNotFoundError (msg_not_found input_data))) as H.
    { unfold _get_content. by rewrite Hpath, Hfile. }
    by rewrite (construct_resolve_error _ _ _ _ H).
  - intros Hraw. apply not_looks_like_path_test in Hraw.
    assert (∀ env0, _get_content env0 input_data = Ok input_data) as Hget.
    { intros env0. unfold _get_content. by rewrite Hraw. }
    split; [apply Hget |].
    intros env' Hloads. unfold WaveDromProject, __init__. run.
    rewrite !Hget. unfold _parse_json5. by rewrite Hloads.
Qed.

(** A missing file; a missing file whose name is valid document text;
    raw text; and a name that differs from an existing file's only in
    the case of its suffix, which is taken as text. *)
Lemma content_resolution_witness :
  fst (WaveDromProject demo_env "non_existent_file.json5" [])
    = Err (FileNotFoundError "File not found: non_existent_file.json5")
  ∧ (loads demo_env "{ signal: [] } // see a.json" = Returns (VDict doc_signal)
     ∧ fst (WaveDromProject demo_env "{ signal: [] } // see a.json" [])
       = Err (FileNotFoundError "File not found: { signal: [] } // see a.json"))
  ∧ _get_content demo_env "{ reg: 'anything' }" = Ok "{ reg: 'anything' }"
  ∧ (isfile demo_env "diagram.json5" = true
     ∧ _get_content demo_env "diagram.JSON5" = Ok "diagram.JSON5").
Proof.
  split; [| split; [| split]].
  - refine (proj1 (content_resolution demo_env "non_existent_file.json5" []) _ _).
    + left. by exists "non_existent_file".
    + reflexivity.
  - split; [reflexivity |].
    refine (proj1 (content_resolution demo_env "{ signal: [] } // see a.json" []) _ _).
    + right. by exists "{ signal: [] } // see a".
    + reflexivity.
  - refine (proj1 (proj2 (content_resolution demo_env "{ reg: 'anything' }" []) _)).
    apply not_looks_like_path_test. reflexivity.
  - split; [reflexivity |].
    refine (proj1 (proj2 (content_resolution demo_env "diagram.JSON5" []) _)).
    apply not_looks_like_path_test. reflexivity.
Defined.

(** ** The parser adapter *)

(** C4. [_parse_json5] follows the parser.  When [pyjson5.loads] raises
    on the text, it raises the [ValueError] tagged [[Parse Error]] that
    carries the parser's message; when the parser returns a dict, it
    returns that dict; when the parser returns anything else, it raises
    the [ValueError] tagged [[Semantic]] that says the root has to be an
    object.  A failure of the first kind occurs exactly when the parser
    raised, and the two failures are of different kinds. *)
Theorem parser_adapter (env : Env) (content : string) :
  match loads env content with
  | Raises str_e =>
      _parse_json5 env content = Err (ValueError (msg_parse_error str_e))
      ∧ kind_of (ValueError (msg_parse_error str_e)) = Some ParseError
  | Returns parsed =>
      if is_dict parsed
      then ∃ d, parsed = VDict d ∧ _parse_json5 env content = Ok d
      else _parse_json5 env content = Err (ValueError msg_root)
           ∧ kind_of (ValueError msg_root) = Some SemanticError
           ∧ ∃ s1 s2, msg_root = s1 ++ "The root has to be an Object" ++ s2
  end
  ∧ ((∃ e, _parse_json5 env content = Err e ∧ kind_of e = Some ParseError)
     ↔ ∃ str_e, loads env content = Raises str_e)
  ∧ (∀ e1 e2, kind_of e1 = Some ParseError → kind_of e2 = Some SemanticError →
              e1 ≠ e2).
Proof.
  assert (∃ s1 s2, msg_root = s1 ++ "The root has to be an Object" ++ s2) as Hroot.
  { exists "[Semantic]: ", (": " ++ dq ++ "{signal:[...]}" ++ dq). reflexivity. }
  unfold _parse_json5. split; [| split].
  - destruct (loads env content) as [parsed|str_e]; [| done].
    destruct parsed; simpl; eauto.
  - split.
    + intros (e & He & Hk).
      destruct (loads env content) as [parsed|str_e]; [| by eauto].
      destruct parsed; try discriminate; injection He as <-; discriminate.
    + intros (str_e & ->). eauto.
  - intros e1 e2 H1 H2 ->. rewrite H1 in H2. discriminate.
Qed.

(** Unbalanced text, a list at the root and a dict at the root. *)
Lemma parser_adapter_witness :
  _parse_json5 demo_env "{ invalid json }"
    = Err (ValueError "[Parse Error]: Invalid JSON5 format - syntax error")
  ∧ _parse_json5 demo_env "[1, 2]" = Err (ValueError msg_root)
  ∧ _parse_json5 demo_env "{ reg: 'anything' }" = Ok doc_reg.
Proof.
  split; [| split].
  - exact (proj1 (proj1 (parser_adapter demo_env "{ invalid json }"))).
  - exact (proj1 (proj1 (parser_adapter demo_env "[1, 2]"))).
  - destruct (proj1 (parser_adapter demo_env "{ reg: 'anything' }"))
      as (d & Hd & Hparse).
    injection Hd as <-. exact Hparse.
Defined.

(** ** Attributes and invariant of a constructed object *)

(** C5. After every successful construction the attributes [config],
    [head] and [foot] of the new object are copies of the values under
    those keys of the parsed document, of whatever type they are, and
    [{}] for each key that the document does not have.  The diagram
    type plays no part. *)
Theorem attribute_extraction (env : Env) (input_data : string)
    (heap heap' : list Instance) (a : nat) :
  WaveDromProject env input_data heap = (Ok a, heap') →
  ∃ doc p,
    parses_to env input_data doc
    ∧ heap' !! a = Some p
    ∧ source p = Some doc
    ∧ copied doc "config" (config p)
    ∧ copied doc "head" (head p)
    ∧ copied doc "foot" (foot p).
Proof.
  intros HW.
  destruct (construct_ok_inv _ _ _ _ _ HW) as (doc & ty & Hp & _ & -> & ->).
  exists doc, (project_of doc ty).
  split; [done |]. split; [apply lookup_new_object |]. split; [done |].
  unfold copied, project_of, dict_get; simpl.
  by destruct (doc !! "config"), (doc !! "head"), (doc !! "foot").
Qed.

(** A dict under [config], a number under [head], no [foot]. *)
Lemma attribute_extraction_witness :
  ∃ doc p,
    parses_to demo_env "{ signal: [], config: { hscale: 2 }, head: 7 }" doc
    ∧ [project_of doc_attrs "signal"] !! 0%nat = Some p
    ∧ source p = Some doc
    ∧ copied doc "config" (config p)
    ∧ copied doc "head" (head p)
    ∧ copied doc "foot" (foot p).
Proof.
  refine (attribute_extraction demo_env
            "{ signal: [], config: { hscale: 2 }, head: 7 }" []
            [project_of doc_attrs "signal"] 0%nat _).
  reflexivity.
Defined.

(** C10. Every object a construction returns has a diagram type among
    [signal], [assign] and [reg]; that type is a key of its [source];
    and when the type is [signal] or [assign] the value under that key
    is a list. *)
Theorem project_invariant (env : Env) (input_data : string)
    (heap heap' : list Instance) (a : nat) :
  WaveDromProject env input_data heap = (Ok a, heap') →
  ∃ p doc ty,
    heap' !! a = Some p
    ∧ source p = Some doc
    ∧ diagram_type p = Some ty
    ∧ (ty = "signal" ∨ ty = "assign" ∨ ty = "reg")
    ∧ is_Some (doc !! ty)
    ∧ (ty = "signal" ∨ ty = "assign" → ∃ items, doc !! ty = Some (VList items)).
Proof.
  intros HW.
  destruct (construct_ok_inv _ _ _ _ _ HW) as (doc & ty & Hp & Hd & -> & ->).
  exists (project_of doc ty), doc, ty.
  split; [apply lookup_new_object |]. split; [done |]. split; [done |].
  rewrite (determine_on_source (loaded doc) doc eq_refl) in Hd.
  destruct (doc !! "signal") as [v|] eqn:Hs.
  { destruct v; try discriminate. injection Hd as <-.
    rewrite Hs. split; [by left |]. split; eauto. }
  destruct (doc !! "assign") as [v|] eqn:Ha.
  { destruct v; try discriminate. injection Hd as <-.
    rewrite Ha. split; [by right; left |]. split; eauto. }
  destruct (doc !! "reg") as [v|] eqn:Hr; [| discriminate].
  injection Hd as <-. rewrite Hr.
  split; [by right; right |]. split; [eauto |].
  intros [?|?]; discriminate.
Qed.

(** The raw string of the test suite gives a [signal] object. *)
Lemma project_invariant_witness :
  ∃ p doc ty,
    [project_of doc_test "signal"] !! 0%nat = Some p
    ∧ source p = Some doc
    ∧ diagram_type p = Some ty
    ∧ (ty = "signal" ∨ ty = "assign" ∨ ty = "reg")
    ∧ is_Some (doc !! ty)
    ∧ (ty = "signal" ∨ ty = "assign" → ∃ items, doc !! ty = Some (VList items)).
Proof.
  refine (project_invariant demo_env
            "{ signal: [ { name: 'test', wave: '01' } ] }" []
            [project_of doc_test "signal"] 0%nat _).
  reflexivity.
Defined.

(** ** Error kinds *)

(** The construction on resolved text follows the rows of the error
    table for text, each kind in its class. *)
Lemma text_trigger_sound (env : Env) (input_data text : string) (heap : list Instance) :
  _get_content env input_data = Ok text →
  match text_trigger env text with
  | None => ∃ a heap', WaveDromProject env input_data heap = (Ok a, heap')
  | Some k =>
      ∃ e heap', WaveDromProject env input_data heap = (Err e, heap')
                 ∧ kind_of e = Some k ∧ class_of e = class_for k
  end.
Proof.
  intros Hget. unfold text_trigger.
  destruct (loads env text) as [parsed|str_e] eqn:Hl.
  2: { exists (ValueError (msg_parse_error str_e)). eexists.
       split; [| split; reflexivity].
       apply (construct_parse_error _ _ text); [done |].
       unfold _parse_json5. by rewrite Hl. }
  assert (is_dict parsed = false →
          ∃ e heap', WaveDromProject env input_data heap = (Err e, heap')
                     ∧ kind_of e = Some SemanticError
                     ∧ class_of e = class_for SemanticError) as Hroot.
  { intros Hnd. exists (ValueError msg_root). eexists. split; [| split; reflexivity].
    apply (construct_parse_error _ _ text); [done |].
    unfold _parse_json5. rewrite Hl. by destruct parsed. }
  destruct parsed as [ | | | | | |doc]; try (by apply Hroot).
  clear Hroot.
  assert (parses_to env input_data doc) as Hp.
  { exists text. split; [done |]. unfold _parse_json5. by rewrite Hl. }
  pose proof (determine_on_source (loaded doc) doc eq_refl) as Hd.
  destruct (doc !! "signal") as [v|].
  { destruct (is_list v).
    - eexists _, _. by apply (construct_classified _ _ _ doc).
    - eexists _, _. split; [by apply (construct_rejected _ _ _ doc) |].
      split; reflexivity. }
  destruct (doc !! "assign") as [v|].
  { destruct (is_list v).
    - eexists _, _. by apply (construct_classified _ _ _ doc).
    - eexists _, _. split; [by apply (construct_rejected _ _ _ doc) |].
      split; reflexivity. }
  destruct (doc !! "reg").
  - eexists _, _. by apply (construct_classified _ _ _ doc).
  - eexists _, _. split; [by apply (construct_rejected _ _ _ doc) |].
    split; reflexivity.
Qed.

(** The construction follows the rows of the error table, each kind in
    its class. *)
Lemma trigger_sound (env : Env) (input_data : string) (heap : list Instance) :
  match trigger env input_data with
  | None => ∃ a heap', WaveDromProject env input_data heap = (Ok a, heap')
  | Some k =>
      ∃ e heap', WaveDromProject env input_data heap = (Err e, heap')
                 ∧ kind_of e = Some k ∧ class_of e = class_for k
  end.
Proof.
  unfold trigger.
  destruct (endswith input_data ".json5" || endswith input_data ".json") eqn:Hsuf.
  - destruct (isfile env input_data) eqn:Hfile.
    + destruct (read_text env input_data) as [text|str_e] eqn:Hread.
      * apply text_trigger_sound. unfold _get_content.
        by rewrite Hsuf, Hfile, Hread.
      * exists (ValueError (msg_read_error input_data str_e)). eexists.
        split; [| split; reflexivity].
        apply construct_resolve_error. unfold _get_content.
        by rewrite Hsuf, Hfile, Hread.
    + exists (FileNotFoundError (msg_not_found input_data)). eexists.
      split; [| split; reflexivity].
      apply construct_resolve_error. unfold _get_content.
      by rewrite Hsuf, Hfile.
  - apply text_trigger_sound. unfold _get_content. by rewrite Hsuf.
Qed.

(** The types [_determine_diagram_type] returns. *)
Lemma classified_types (doc : gmap string value) (ty : string) (self : Instance) :
  _determine_diagram_type (loaded doc) = Normal ty self →
  ty = "signal" ∨ ty = "assign" ∨ ty = "reg".
Proof.
  rewrite (determine_on_source (loaded doc) doc eq_refl).
  destruct (doc !! "signal") as [v|].
  { destruct (is_list v); [| discriminate]. intros [= <- _]. by left. }
  destruct (doc !! "assign") as [v|].
  { destruct (is_list v); [| discriminate]. intros [= <- _]. by right; left. }
  destruct (doc !! "reg"); [| discriminate].
  intros [= <- _]. by right; right.
Qed.

(** The two ways a construction ends: a complete object, or an
    exception of one of the two classes the code raises. *)
Lemma construct_cases (env : Env) (input_data : string) (heap : list Instance) :
  (∃ doc ty,
     parses_to env input_data doc
     ∧ (ty = "signal" ∨ ty = "assign" ∨ ty = "reg")
     ∧ WaveDromProject env input_data heap
       = (Ok (List.length heap), (heap ++ [project_of doc ty])%list))
  ∨ (∃ e partial,
       WaveDromProject env input_data heap = (Err e, (heap ++ [partial])%list)
       ∧ class_of e ≠ CAttributeError).
Proof.
  pose proof (trigger_sound env input_data heap) as Hk.
  destruct (trigger env input_data) as [k|].
  - right. destruct Hk as (e & heap' & HW & Hkind & Hclass).
    exists e. unfold WaveDromProject in *.
    destruct (__init__ env input_data object_new) as [u self|e' self];
      [discriminate |].
    injection HW as -> <-. exists self. split; [done |].
    rewrite Hclass. by destruct k.
  - left. destruct Hk as (a & heap' & HW).
    destruct (construct_ok_inv _ _ _ _ _ HW) as (doc & ty & Hp & Hd & -> & ->).
    exists doc, ty. split; [done |]. split; [| done].
    by apply (classified_types doc ty (loaded doc)).
Qed.

(** C7, as the code has it.  Every row of the error table is signalled,
    and a caller can recover the row from the exception: by its class
    for a missing file, which is a [FileNotFoundError], and for the
    three other rows, which are all [ValueError], only by the tag that
    starts the message ([Error reading file], [[Parse Error]:],
    [[Semantic]:]).  Two kinds are raised in the same class exactly
    when both or neither is [NotFound]. *)
Theorem error_kinds (env : Env) (input_data : string) (heap : list Instance) :
  match trigger env input_data with
  | None => ∃ a heap', WaveDromProject env input_data heap = (Ok a, heap')
  | Some k =>
      ∃ e heap', WaveDromProject env input_data heap = (Err e, heap')
                 ∧ kind_of e = Some k ∧ class_of e = class_for k
  end
  ∧ (∀ k1 k2, class_for k1 = class_for k2 ↔ (k1 = NotFound ↔ k2 = NotFound)).
Proof.
  split; [apply trigger_sound |].
  intros [] []; simpl; split; intros H; try done;
    try (split; intros; discriminate);
    try (destruct H as [H1 H2]; first [specialize (H1 eq_refl) | specialize (H2 eq_refl)];
         discriminate).
Qed.

(** C7, as stated, fails.  The invalid text and the document without a
    diagram key of the test suite fail for different rows of the error
    table, a parse error and a semantic error, and both are raised as
    [ValueError]: an [except] clause cannot tell them apart. *)
Lemma error_kinds_share_class :
  ∃ e1 e2,
    fst (WaveDromProject demo_env "{ invalid json }" []) = Err e1
    ∧ trigger demo_env "{ invalid json }" = Some ParseError
    ∧ fst (WaveDromProject demo_env "{ config: {} }" []) = Err e2
    ∧ trigger demo_env "{ config: {} }" = Some SemanticError
    ∧ class_of e1 = class_of e2.
Proof.
  exists (ValueError (msg_parse_error "syntax error")), (ValueError msg_missing).
  repeat split; reflexivity.
Qed.

(** ** Construction as a whole *)

(** C8. A construction is all or nothing.  For every input, either it
    returns the address of a new object in which all five attributes
    are set, [source] to the parsed document, [diagram_type] to one of
    the three types and [config], [head], [foot] to their copies, or it
    raises and returns no address.  Each stage that fails makes the
    construction raise that very exception; no stage failure is
    replaced by a default.  The objects the caller already held are
    untouched. *)
Theorem construction_atomic (env : Env) (input_data : string) (heap : list Instance) :
  let r := WaveDromProject env input_data heap in
  ((∃ doc ty,
      parses_to env input_data doc
      ∧ fst r = Ok (List.length heap)
      ∧ snd r !! List.length heap = Some (project_of doc ty)
      ∧ all_set (project_of doc ty)
      ∧ (ty = "signal" ∨ ty = "assign" ∨ ty = "reg"))
   ∨ (∃ e, fst r = Err e ∧ class_of e ≠ CAttributeError))
  ∧ (∀ e, _get_content env input_data = Err e → fst r = Err e)
  ∧ (∀ content e,
       _get_content env input_data = Ok content →
       _parse_json5 env content = Err e → fst r = Err e)
  ∧ (∀ doc e self',
       parses_to env input_data doc →
       _determine_diagram_type (loaded doc) = Raised e self' → fst r = Err e)
  ∧ (∀ a, (a < List.length heap)%nat → snd r !! a = heap !! a).
Proof.
  intros r. subst r. split; [| split; [| split; [| split]]].
  - destruct (construct_cases env input_data heap)
      as [(doc & ty & Hp & Hty & ->) | (e & partial & -> & Hclass)].
    + left. exists doc, ty. split; [done |]. split; [done |].
      split; [apply lookup_new_object |]. split; [| done].
      unfold all_set, project_of; simpl; eauto 10.
    + right. by exists e.
  - intros e H. by rewrite (construct_resolve_error _ _ _ e H).
  - intros content e H1 H2. by rewrite (construct_parse_error _ _ content _ e H1 H2).
  - intros doc e self' Hp Hd.
    pose proof (determine_reads_source (loaded doc) (loaded doc) eq_refl) as Hs.
    rewrite Hd in Hs. destruct Hs as (_ & -> & _).
    by rewrite (construct_rejected _ _ _ doc e Hp Hd).
  - intros a Ha. unfold WaveDromProject.
    destruct (__init__ env input_data object_new); simpl;
      by rewrite lookup_app_l.
Qed.

(** C9. Two constructions in a row on the same input, in the same
    environment, end alike: either both return, at two different
    addresses, objects with the same five attributes, and the second
    leaves the first object as it was, or both raise the same
    exception.  Nothing of the state in which [__init__] finds the
    object reaches the result. *)
Theorem construction_deterministic (env : Env) (input_data : string)
    (heap : list Instance) :
  let c1 := WaveDromProject env input_data heap in
  let c2 := WaveDromProject env input_data (snd c1) in
  match fst c1, fst c2 with
  | Ok a1, Ok a2 =>
      a1 ≠ a2
      ∧ ∃ p, snd c1 !! a1 = Some p ∧ snd c2 !! a1 = Some p ∧ snd c2 !! a2 = Some p
             ∧ all_set p
  | Err e1, Err e2 => e1 = e2
  | _, _ => False
  end
  ∧ (∀ self1 self2 : Instance,
       __init__ env input_data self1 = __init__ env input_data self2).
Proof.
  split; [| apply init_any_self].
  destruct (construct_cases env input_data heap)
    as [(doc & ty & Hp & Hty & H1) | (e & partial & H1 & _)];
    rewrite H1; simpl.
  - rewrite (construct_classified env input_data
               (heap ++ [project_of doc ty])%list doc ty Hp); simpl.
    + split; [rewrite length_app; simpl; lia |].
      exists (project_of doc ty).
      split; [apply lookup_new_object |].
      split; [rewrite lookup_app_l by (rewrite length_app; simpl; lia);
              apply lookup_new_object |].
      split; [apply lookup_new_object |].
      unfold all_set, project_of; simpl; eauto 10.
    + destruct (construct_ok_inv _ _ _ _ _ H1) as (doc' & ty' & Hp' & Hd & _ & Heq).
      apply app_inj_tail in Heq as [_ Heq].
      injection Heq as <- <-. exact Hd.
  - destruct (construct_cases env input_data (heap ++ [partial])%list)
      as [(doc & ty & Hp & Hty & H2) | (e' & partial' & H2 & _)];
      rewrite H2; simpl.
    + unfold WaveDromProject in *.
      destruct (__init__ env input_data object_new); discriminate.
    + unfold WaveDromProject in *.
      destruct (__init__ env input_data object_new); [discriminate |].
      congruence.
Qed.

(** * Further properties of the code *)

Local Set Warnings "-clear-no-such-hyp".

(** ** The object a caller holds *)

Lemma constructed_store (env : Env) (input_data : string) (heap : list Instance) :
  match constructed env input_data with
  | Ok p =>
      WaveDromProject env input_data heap
      = (Ok (List.length heap), (heap ++ [p])%list)
  | Err e => fst (WaveDromProject env input_data heap) = Err e
  end.
Proof.
  unfold constructed, WaveDromProject.
  by destruct (__init__ env input_data object_new) as [[] self|e self].
Qed.

Lemma classified_iff (doc : gmap string value) (ty : string) :
  _determine_diagram_type (loaded doc) = Normal ty (loaded doc) ↔ classified doc ty.
Proof.
  rewrite (determine_on_source (loaded doc) doc eq_refl). unfold classified.
  destruct (doc !! "signal") as [v|].
  { destruct v; simpl; naive_solver. }
  destruct (doc !! "assign") as [v|].
  { destruct v; simpl; naive_solver. }
  destruct (doc !! "reg") as [v|]; naive_solver.
Qed.

Lemma constructed_parsed (env : Env) (input_data : string) (doc : gmap string value) :
  parses_to env input_data doc →
  constructed env input_data =
    match _determine_diagram_type (loaded doc) with
    | Normal ty _ => Ok (project_of doc ty)
    | Raised e _ => Err e
    end.
Proof.
  intros Hp. unfold constructed. rewrite (init_parsed _ _ _ doc Hp).
  by destruct (_determine_diagram_type (loaded doc)).
Qed.

(** A construction succeeds exactly when the input parses to a dict
    that classifies. *)
Lemma constructed_ok_iff (env : Env) (input_data : string) (p : Instance) :
  constructed env input_data = Ok p ↔
  ∃ doc ty, parses_to env input_data doc ∧ classified doc ty
            ∧ p = project_of doc ty.
Proof.
  split.
  - intros Hc.
    destruct (_get_content env input_data) as [content|e] eqn:H1.
    2: { unfold constructed in Hc.
         rewrite (init_resolve_error _ _ _ e H1) in Hc. discriminate. }
    destruct (_parse_json5 env content) as [doc|e] eqn:H2.
    2: { unfold constructed in Hc.
         rewrite (init_parse_error _ _ content _ e H1 H2) in Hc. discriminate. }
    assert (parses_to env input_data doc) as Hp by (by exists content).
    rewrite (constructed_parsed _ _ doc Hp) in Hc.
    pose proof (determine_reads_source (loaded doc) (loaded doc) eq_refl) as Hs.
    destruct (_determine_diagram_type (loaded doc)) as [ty s|e s] eqn:Hd;
      [| discriminate].
    destruct Hs as (_ & -> & _). injection Hc as <-.
    exists doc, ty. split; [done |]. split; [by apply classified_iff | done].
  - intros (doc & ty & Hp & Hc & ->).
    rewrite (constructed_parsed _ _ doc Hp).
    apply classified_iff in Hc. by rewrite Hc.
Qed.

(** A raw string parses to what the parser makes of it. *)
Lemma parses_to_raw (env : Env) (text : string) (doc : gmap string value) :
  endswith text ".json5" || endswith text ".json" = false →
  parses_to env text doc ↔ loads env text = Returns (VDict doc).
Proof.
  intros Hraw. unfold parses_to, _get_content, _parse_json5. rewrite Hraw. split.
  - intros (content & [= <-] & Hl).
    destruct (loads env text) as [[]|]; try discriminate. by injection Hl as ->.
  - intros Hl. exists text. by rewrite Hl.
Qed.

(** A path to a readable file parses to what the parser makes of the
    file's text. *)
Lemma parses_to_file (env : Env) (path text : string) (doc : gmap string value) :
  endswith path ".json5" || endswith path ".json" = true →
  isfile env path = true →
  read_text env path = Returns text →
  parses_to env path doc ↔ loads env text = Returns (VDict doc).
Proof.
  intros Hpath Hfile Hread. unfold parses_to, _get_content, _parse_json5.
  rewrite Hpath, Hfile, Hread. split.
  - intros (content & [= <-] & Hl).
    destruct (loads env text) as [[]|]; try discriminate. by injection Hl as ->.
  - intros Hl. exists text. by rewrite Hl.
Qed.

(** ** Files *)

(** X1. Loading a document from a file is the same as passing the
    file's text: for a path that ends in an accepted suffix and names a
    readable file, the construction ends as the construction from the
    text of the file does, with the same object or the same exception,
    provided the text does not itself end in one of the suffixes. *)
Theorem file_same_as_text (env : Env) (path text : string) (heap : list Instance) :
  looks_like_path path →
  isfile env path = true →
  read_text env path = Returns text →
  ¬ looks_like_path text →
  WaveDromProject env path heap = WaveDromProject env text heap.
Proof.
  intros Hpath Hfile Hread Hraw.
  apply looks_like_path_test in Hpath. apply not_looks_like_path_test in Hraw.
  assert (_get_content env path = Ok text) as H1.
  { unfold _get_content. by rewrite Hpath, Hfile, Hread. }
  assert (_get_content env text = Ok text) as H2.
  { unfold _get_content. by rewrite Hraw. }
  unfold WaveDromProject, __init__. run. by rewrite H1, H2.
Qed.

(** The file [diagram.json5] and its text. *)
Lemma file_same_as_text_witness :
  WaveDromProject demo_env "diagram.json5" []
  = WaveDromProject demo_env "{ reg: 'anything' }" [].
Proof.
  refine (file_same_as_text demo_env "diagram.json5" "{ reg: 'anything' }" [] _ _ _ _).
  - left. by exists "diagram".
  - reflexivity.
  - reflexivity.
  - apply not_looks_like_path_test. reflexivity.
Defined.

(** The proviso of X1 is needed: a file whose text ends in a comment
    that ends in [.json] loads, while its text passed as a string is
    taken for the path of a missing file. *)
Lemma file_text_taken_for_path :
  fst (WaveDromProject tail_env "a.json5" []) = Ok 0%nat
  ∧ fst (WaveDromProject tail_env "{ signal: [] } // see a.json" [])
    = Err (FileNotFoundError "File not found: { signal: [] } // see a.json").
Proof. split; reflexivity. Qed.

(** X2. A file that exists and cannot be read makes the construction
    raise a [ValueError] whose message is [Error reading file],
    the path, a colon and the text of the underlying exception; the
    parser is not consulted.  The message is tagged as an input error
    whatever the path and the cause are. *)
Theorem read_failure (env : Env) (path str_e : string) (heap : list Instance) :
  looks_like_path path →
  isfile env path = true →
  read_text env path = Raises str_e →
  fst (WaveDromProject env path heap)
    = Err (ValueError ("Error reading file " ++ path ++ ": " ++ str_e))
  ∧ kind_of (ValueError ("Error reading file " ++ path ++ ": " ++ str_e))
    = Some InvalidInput.
Proof.
  intros Hpath Hfile Hread. apply looks_like_path_test in Hpath.
  split; [| reflexivity].
  assert (_get_content env path
          = Err (ValueError (msg_read_error path str_e))) as H.
  { unfold _get_content. by rewrite Hpath, Hfile, Hread. }
  by rewrite (construct_resolve_error _ _ _ _ H).
Qed.

(** The file [locked.json], which exists and is not readable. *)
Lemma read_failure_witness :
  fst (WaveDromProject demo_env "locked.json" [])
    = Err (ValueError ("Error reading file " ++ "locked.json" ++ ": "
                       ++ "[Errno 13] Permission denied: 'locked.json'"))
  ∧ kind_of (ValueError ("Error reading file " ++ "locked.json" ++ ": "
                         ++ "[Errno 13] Permission denied: 'locked.json'"))
    = Some InvalidInput.
Proof.
  refine (read_failure demo_env "locked.json"
            "[Errno 13] Permission denied: 'locked.json'" [] _ _ _).
  - right. by exists "locked".
  - reflexivity.
  - reflexivity.
Defined.

(** Resolved text never fails as a missing file. *)
Lemma text_trigger_class (env : Env) (text : string) (k : ErrorKind) :
  text_trigger env text = Some k → class_for k = CValueError.
Proof.
  unfold text_trigger. intros H.
  destruct (loads env text) as [[]|]; repeat case_match; by simplify_eq.
Qed.

(** The two classes of failure and when each occurs. *)
Lemma construct_failure_cases (env : Env) (input_data : string)
    (heap : list Instance) (e : exn) :
  fst (WaveDromProject env input_data heap) = Err e →
  (looks_like_path input_data ∧ isfile env input_data = false
   ∧ e = FileNotFoundError ("File not found: " ++ input_data))
  ∨ (¬ (looks_like_path input_data ∧ isfile env input_data = false)
     ∧ class_of e = CValueError).
Proof.
  intros HW.
  pose proof (trigger_sound env input_data heap) as Hk. unfold trigger in Hk.
  destruct (endswith input_data ".json5" || endswith input_data ".json") eqn:Hsuf.
  - destruct (isfile env input_data) eqn:Hfile.
    + right. split; [by intros [_ ?] |].
      destruct (read_text env input_data) as [text|str_e].
      * destruct (text_trigger env text) as [k|] eqn:Ht.
        -- destruct Hk as (e' & heap' & HW' & _ & Hclass).
           rewrite HW' in HW. injection HW as <-.
           rewrite Hclass. by apply (text_trigger_class env text).
        -- destruct Hk as (a & heap' & HW'). rewrite HW' in HW. discriminate.
      * destruct Hk as (e' & heap' & HW' & _ & Hclass).
        rewrite HW' in HW. by injection HW as <-.
    + left. apply looks_like_path_test in Hsuf as Hpath. split; [done |].
      split; [done |].
      assert (_get_content env input_data
              = Err (FileNotFoundError (msg_not_found input_data))) as H.
      { unfold _get_content. by rewrite Hsuf, Hfile. }
      rewrite (construct_resolve_error _ _ _ _ H) in HW. by injection HW as <-.
  - right. apply not_looks_like_path_test in Hsuf as Hraw.
    split; [by intros [? _] |].
    destruct (text_trigger env input_data) as [k|] eqn:Ht.
    + destruct Hk as (e' & heap' & HW' & _ & Hclass).
      rewrite HW' in HW. injection HW as <-.
      rewrite Hclass. by apply (text_trigger_class env input_data).
    + destruct Hk as (a & heap' & HW'). rewrite HW' in HW. discriminate.
Qed.

(** X3. The exceptions of a construction.  A construction that fails
    raises [FileNotFoundError] exactly when the input ends in an
    accepted suffix and names no file, and then the message is
    [File not found:] and the input; every other failure is a
    [ValueError].  In particular a string that does not end in a suffix
    can only make the construction raise [ValueError]. *)
Theorem failure_classes (env : Env) (input_data : string)
    (heap : list Instance) (e : exn) :
  fst (WaveDromProject env input_data heap) = Err e →
  (looks_like_path input_data ∧ isfile env input_data = false
   ∧ e = FileNotFoundError ("File not found: " ++ input_data))
  ∨ (¬ (looks_like_path input_data ∧ isfile env input_data = false)
     ∧ class_of e = CValueError).
Proof. apply construct_failure_cases. Qed.

(** A missing file and a raw string without a diagram key. *)
Lemma failure_classes_witness :
  ((looks_like_path "non_existent_file.json5"
    ∧ isfile demo_env "non_existent_file.json5" = false
    ∧ FileNotFoundError (msg_not_found "non_existent_file.json5")
      = FileNotFoundError ("File not found: " ++ "non_existent_file.json5"))
   ∨ (¬ (looks_like_path "non_existent_file.json5"
         ∧ isfile demo_env "non_existent_file.json5" = false)
      ∧ class_of (FileNotFoundError (msg_not_found "non_existent_file.json5"))
        = CValueError))
  ∧ ((looks_like_path "{ config: {} }"
      ∧ isfile demo_env "{ config: {} }" = false
      ∧ ValueError msg_missing
        = FileNotFoundError ("File not found: " ++ "{ config: {} }"))
     ∨ (¬ (looks_like_path "{ config: {} }"
           ∧ isfile demo_env "{ config: {} }" = false)
        ∧ class_of (ValueError msg_missing) = CValueError)).
Proof.
  split.
  - refine (failure_classes demo_env "non_existent_file.json5" [] _ _). reflexivity.
  - refine (failure_classes demo_env "{ config: {} }" [] _ _). reflexivity.
Defined.

(** ** The methods on an object *)

(** X4. A constructed object is stable under its own methods: calling
    [_determine_diagram_type] on it again returns the diagram type it
    stores, and calling [_extract_attributes] again leaves every
    attribute as it is. *)
Theorem constructed_stable (env : Env) (input_data : string) (p : Instance) :
  constructed env input_data = Ok p →
  ∃ ty,
    diagram_type p = Some ty
    ∧ _determine_diagram_type p = Normal ty p
    ∧ _extract_attributes p = Normal tt p.
Proof.
  intros Hc. apply constructed_ok_iff in Hc as (doc & ty & _ & Hcl & ->).
  exists ty. split; [done |]. split.
  - apply classified_iff in Hcl.
    pose proof (determine_reads_source (project_of doc ty) (loaded doc) eq_refl) as Hs.
    rewrite Hcl in Hs.
    destruct (_determine_diagram_type (project_of doc ty)) as [ty' s|e s]; [| done].
    by destruct Hs as (-> & -> & _).
  - by rewrite (extract_on_source (project_of doc ty) doc eq_refl).
Qed.

(** The object made from the raw string of the test suite. *)
Lemma constructed_stable_witness :
  ∃ ty,
    diagram_type (project_of doc_test "signal") = Some ty
    ∧ _determine_diagram_type (project_of doc_test "signal")
      = Normal ty (project_of doc_test "signal")
    ∧ _extract_attributes (project_of doc_test "signal")
      = Normal tt (project_of doc_test "signal").
Proof.
  refine (constructed_stable demo_env
            "{ signal: [ { name: 'test', wave: '01' } ] }"
            (project_of doc_test "signal") _).
  reflexivity.
Defined.

(** X5. [_extract_attributes] on any object.  When the object has a
    [source], the call assigns [config], [head] and [foot], keeps
    [source] and [diagram_type], and a second call changes nothing more;
    when it has none, the call raises [AttributeError] and assigns
    nothing. *)
Theorem extract_attributes_idempotent (self : Instance) :
  match source self with
  | Some doc =>
      ∃ self',
        _extract_attributes self = Normal tt self'
        ∧ source self' = Some doc
        ∧ diagram_type self' = diagram_type self
        ∧ copied doc "config" (config self')
        ∧ copied doc "head" (head self')
        ∧ copied doc "foot" (foot self')
        ∧ _extract_attributes self' = Normal tt self'
  | None =>
      ∃ msg, _extract_attributes self = Raised (AttributeError msg) self
  end.
Proof.
  destruct (source self) as [doc|] eqn:Hsrc.
  - eexists. split; [by apply extract_on_source |].
    split; [done |]. split; [done |].
    unfold copied, dict_get; simpl.
    split; [by destruct (doc !! "config") |].
    split; [by destruct (doc !! "head") |].
    split; [by destruct (doc !! "foot") |].
    by rewrite extract_on_source with (doc := doc).
  - unfold _extract_attributes, mbind, M_bind, getattr. rewrite Hsrc. eauto.
Qed.

(** X6. The classification looks at nothing but the presence and the
    listness of the values under [signal], [assign] and [reg].  Two
    inputs, in whatever environments, whose documents agree on that for
    the three keys end alike: both give an object, of the same diagram
    type, or both raise the same exception.  Other keys and the items
    of the lists play no part. *)
Theorem classification_by_shape (env1 env2 : Env) (input1 input2 : string)
    (doc1 doc2 : gmap string value) :
  parses_to env1 input1 doc1 →
  parses_to env2 input2 doc2 →
  key_shape doc1 "signal" = key_shape doc2 "signal" →
  key_shape doc1 "assign" = key_shape doc2 "assign" →
  key_shape doc1 "reg" = key_shape doc2 "reg" →
  match constructed env1 input1, constructed env2 input2 with
  | Ok p1, Ok p2 => diagram_type p1 = diagram_type p2 ∧ is_Some (diagram_type p1)
  | Err e1, Err e2 => e1 = e2
  | _, _ => False
  end.
Proof.
  intros Hp1 Hp2 Hs Ha Hr. unfold key_shape in *.
  rewrite (constructed_parsed _ _ doc1 Hp1), (constructed_parsed _ _ doc2 Hp2).
  rewrite (determine_on_source (loaded doc1) doc1 eq_refl).
  rewrite (determine_on_source (loaded doc2) doc2 eq_refl).
  destruct (doc1 !! "signal") as [v1|], (doc2 !! "signal") as [v2|];
    simpl in Hs; try discriminate.
  { injection Hs as Hs. rewrite Hs. destruct (is_list v2); simpl; eauto. }
  destruct (doc1 !! "assign") as [v1|], (doc2 !! "assign") as [v2|];
    simpl in Ha; try discriminate.
  { injection Ha as Ha. rewrite Ha. destruct (is_list v2); simpl; eauto. }
  destruct (doc1 !! "reg"), (doc2 !! "reg"); simpl in Hr; try discriminate;
    simpl; eauto.
Qed.

(** An empty [signal] list beside [config] and [head], and a [signal]
    list with one wave: both are [signal] diagrams. *)
Lemma classification_by_shape_witness :
  match constructed demo_env "{ signal: [], config: { hscale: 2 }, head: 7 }",
        constructed demo_env "{ signal: [ { name: 'test', wave: '01' } ] }" with
  | Ok p1, Ok p2 => diagram_type p1 = diagram_type p2 ∧ is_Some (diagram_type p1)
  | Err e1, Err e2 => e1 = e2
  | _, _ => False
  end.
Proof.
  refine (classification_by_shape demo_env demo_env
            "{ signal: [], config: { hscale: 2 }, head: 7 }"
            "{ signal: [ { name: 'test', wave: '01' } ] }"
            doc_attrs doc_test _ _ _ _ _).
  - exists "{ signal: [], config: { hscale: 2 }, head: 7 }". split; reflexivity.
  - exists "{ signal: [ { name: 'test', wave: '01' } ] }". split; reflexivity.
  - reflexivity.
  - reflexivity.
  - reflexivity.
Defined.

(** ** The test script *)

(** What a raw string that is not taken for a path gives. *)
Lemma constructed_raw (env : Env) (text : string) :
  endswith text ".json5" || endswith text ".json" = false →
  match text_trigger env text with
  | Some _ => ∃ e, constructed env text = Err e ∧ class_of e = CValueError
  | None => ∃ p, constructed env text = Ok p
  end.
Proof.
  intros Hraw.
  pose proof (trigger_sound env text []) as Hk. unfold trigger in Hk.
  rewrite Hraw in Hk.
  pose proof (constructed_store env text []) as Hst.
  destruct (text_trigger env text) as [k|] eqn:Ht.
  - destruct Hk as (e & heap' & HW & _ & Hclass). rewrite HW in Hst.
    destruct (constructed env text) as [p|e']; [discriminate |].
    simpl in Hst. injection Hst as <-. exists e. split; [done |].
    rewrite Hclass. by apply (text_trigger_class env text).
  - destruct Hk as (a & heap' & HW). rewrite HW in Hst.
    destruct (constructed env text) as [p|e']; [eauto | discriminate].
Qed.

(** X7. [test_signal_file] passes exactly when the file
    [signal-step4.json5] resolves and parses to a dict with a list
    under [signal]. *)
Theorem test_signal_file_passes (env : Env) :
  test_signal_file env = true ↔
  ∃ doc items,
    parses_to env signal_file_path doc ∧ doc !! "signal" = Some (VList items).
Proof.
  unfold test_signal_file. split.
  - destruct (constructed env signal_file_path) as [p|e] eqn:Hc; [| discriminate].
    apply constructed_ok_iff in Hc as (doc & ty & Hp & Hcl & ->). simpl.
    destruct (String.eqb_spec ty "signal") as [->|Hne]; [| discriminate].
    intros _. destruct Hcl as [(_ & items & Hs) | [(? & _) | (? & _)]];
      [eauto | discriminate..].
  - intros (doc & items & Hp & Hs).
    assert (constructed env signal_file_path = Ok (project_of doc "signal")) as ->.
    { apply constructed_ok_iff. exists doc, "signal". split; [done |].
      split; [left; eauto | done]. }
    simpl. unfold contains. by rewrite Hs.
Qed.

(** X8. [test_reg_file] passes exactly when the file [reg-vl.json5]
    resolves and parses to a dict without [signal] and [assign] whose
    value under [reg] has a length, that is, is a list, a dict or a
    string.  A register document with a number, a bool or [None] under
    [reg] is constructed and still fails the test, which prints
    [len(project.source['reg'])]. *)
Theorem test_reg_file_passes (env : Env) :
  test_reg_file env = true ↔
  ∃ doc v,
    parses_to env reg_file_path doc
    ∧ doc !! "signal" = None ∧ doc !! "assign" = None
    ∧ doc !! "reg" = Some v
    ∧ (is_list v = true ∨ is_dict v = true ∨ ∃ s, v = VStr s).
Proof.
  unfold test_reg_file. split.
  - destruct (constructed env reg_file_path) as [p|e] eqn:Hc; [| discriminate].
    apply constructed_ok_iff in Hc as (doc & ty & Hp & Hcl & ->). simpl.
    destruct (String.eqb_spec ty "reg") as [->|Hne]; [| discriminate].
    destruct Hcl as [(? & _) | [(? & _) | (_ & Hs & Ha & [v Hr])]];
      [discriminate.. |].
    simpl. unfold contains. rewrite Hr. simpl. intros Hlen.
    exists doc, v. repeat (split; [done |]).
    destruct v; try discriminate; eauto.
  - intros (doc & v & Hp & Hs & Ha & Hr & Hv).
    assert (constructed env reg_file_path = Ok (project_of doc "reg")) as ->.
    { apply constructed_ok_iff. exists doc, "reg". split; [done |].
      split; [right; right; eauto | done]. }
    simpl. unfold contains. rewrite Hr. simpl.
    destruct Hv as [Hv | [Hv | [s ->]]]; [by destruct v.. | done].
Qed.

(** A register file with the number 5 under [reg]: the construction
    returns a [reg] object and the test fails. *)
Lemma test_reg_file_number :
  constructed (suite_env (VInt 5)) reg_file_path
    = Ok (project_of (suite_doc_reg (VInt 5)) "reg")
  ∧ test_reg_file (suite_env (VInt 5)) = false
  ∧ test_reg_file (suite_env (VList [])) = true.
Proof. repeat split; reflexivity. Qed.

(** X9. [test_raw_string] passes exactly when the parser turns the raw
    string into a dict whose [signal] is a list of one dict with [test]
    under [name] and [01] under [wave]. *)
Theorem test_raw_string_passes (env : Env) :
  test_raw_string env = true ↔
  ∃ doc entry,
    loads env raw_string = Returns (VDict doc)
    ∧ doc !! "signal" = Some (VList [VDict entry])
    ∧ entry !! "name" = Some (VStr "test")
    ∧ entry !! "wave" = Some (VStr "01").
Proof.
  unfold test_raw_string. split.
  - destruct (constructed env raw_string) as [p|e] eqn:Hc; [| discriminate].
    apply constructed_ok_iff in Hc as (doc & ty & Hp & Hcl & ->). simpl.
    apply (parses_to_raw env raw_string doc eq_refl) in Hp.
    destruct (String.eqb_spec ty "signal") as [->|Hne]; [| discriminate].
    destruct Hcl as [(_ & items & Hs) | [(? & _) | (? & _)]];
      [| discriminate..].
    simpl. unfold contains. rewrite Hs. simpl.
    destruct items as [|first [|second rest]]; try discriminate. simpl.
    destruct first as [ | | | | | |entry]; try discriminate. simpl.
    destruct (entry !! "name") as [[ | | | |name| | ]|] eqn:Hn; try discriminate.
    simpl. destruct (String.eqb_spec name "test") as [->|]; [| discriminate].
    simpl.
    destruct (entry !! "wave") as [[ | | | |wave| | ]|] eqn:Hw; try discriminate.
    simpl. destruct (String.eqb_spec wave "01") as [->|]; [| discriminate].
    intros _. by exists doc, entry.
  - intros (doc & entry & Hl & Hs & Hn & Hw).
    assert (constructed env raw_string = Ok (project_of doc "signal")) as ->.
    { apply constructed_ok_iff. exists doc, "signal".
      split; [by apply (parses_to_raw env raw_string doc eq_refl) |].
      split; [left; eauto | done]. }
    simpl. unfold contains. rewrite Hs. simpl. rewrite Hn. simpl. by rewrite Hw.
Qed.

(** One turn of the loop keeps [all_passed] exactly when the
    construction raises an exception of the expected class. *)
Lemma run_case_true (env : Env) (all_passed : bool) (tc : test_case) :
  run_case env all_passed tc = true ↔
  all_passed = true
  ∧ ∃ e, constructed env (tc_input tc) = Err e
         ∧ class_of e = tc_expected_error tc.
Proof.
  unfold run_case, caught_by.
  destruct (constructed env (tc_input tc)) as [p|e].
  - split; [discriminate | by intros (_ & e & [=] & _)].
  - split.
    + destruct (class_of e) eqn:Hcl, (tc_expected_error tc) eqn:Hex;
        try discriminate; intros ->; eauto.
    + intros (-> & e' & [= <-] & <-). by destruct (class_of e).
Qed.

(** A raw string fails with a [ValueError] exactly when some row of the
    error table applies to it. *)
Lemma raw_case (env : Env) (text : string) :
  endswith text ".json5" || endswith text ".json" = false →
  (∃ e, constructed env text = Err e ∧ class_of e = CValueError)
  ↔ is_Some (text_trigger env text).
Proof.
  intros Hraw. pose proof (constructed_raw env text Hraw) as H.
  destruct (text_trigger env text) as [k|].
  - split; [eauto | done].
  - destruct H as [p Hp]. split.
    + intros (e & He & _). rewrite Hp in He. discriminate.
    + by intros [? [=]].
Qed.

(** The first case: a [FileNotFoundError] exactly when the file is
    missing. *)
Lemma missing_file_case (env : Env) (path : string) :
  endswith path ".json5" || endswith path ".json" = true →
  (∃ e, constructed env path = Err e ∧ class_of e = CFileNotFoundError)
  ↔ isfile env path = false.
Proof.
  intros Hpath. pose proof (constructed_store env path []) as Hst. split.
  - intros (e & He & Hcl). rewrite He in Hst.
    destruct (construct_failure_cases env path [] e Hst)
      as [(_ & Hfile & _) | (_ & Hv)]; [done |].
    rewrite Hcl in Hv. discriminate.
  - intros Hfile. exists (FileNotFoundError (msg_not_found path)).
    split; [| done]. unfold constructed.
    rewrite (init_resolve_error env path object_new
               (FileNotFoundError (msg_not_found path))); [done |].
    unfold _get_content. by rewrite Hpath, Hfile.
Qed.

(** X10. [test_invalid_inputs] passes exactly when
    [non_existent_file.json5] is not a file and each of the four raw
    strings fails for some row of the error table.  Which row is not
    checked: each of them is expected as [ValueError] only, so the test
    passes just as well when, say, the parser rejects the text meant
    to lack a diagram key. *)
Theorem test_invalid_inputs_passes (env : Env) :
  test_invalid_inputs env = true ↔
  isfile env "non_existent_file.json5" = false
  ∧ is_Some (text_trigger env "{ invalid json }")
  ∧ is_Some (text_trigger env input_missing_keys)
  ∧ is_Some (text_trigger env input_non_object)
  ∧ is_Some (text_trigger env input_bad_signal).
Proof.
  unfold test_invalid_inputs, test_cases. cbn [fold_left].
  rewrite !run_case_true. cbn [tc_input tc_expected_error].
  rewrite (missing_file_case env "non_existent_file.json5" eq_refl).
  rewrite (raw_case env "{ invalid json }" eq_refl).
  rewrite (raw_case env input_missing_keys eq_refl).
  rewrite (raw_case env input_non_object eq_refl).
  rewrite (raw_case env input_bad_signal eq_refl).
  naive_solver.
Qed.

(** The test passes in an environment whose parser rejects every one
    of the four strings, the three well-formed ones included. *)
Lemma test_invalid_inputs_any_row :
  loads demo_env input_missing_keys = Raises "syntax error"
  ∧ loads demo_env input_non_object = Raises "syntax error"
  ∧ loads demo_env input_bad_signal = Raises "syntax error"
  ∧ test_invalid_inputs demo_env = true.
Proof. repeat split; reflexivity. Qed.

(** The steps of a test body. *)
Lemma passes_assert (b : bool) (k : unit → option unit) :
  passes (py_assert b ≫= k) = true ↔ b = true ∧ passes (k tt) = true.
Proof. destruct b; simpl; naive_solver. Qed.

Lemma passes_bind {A : Type} (mx : option A) (k : A → option unit) :
  passes (mx ≫= k) = true ↔ ∃ x, mx = Some x ∧ passes (k x) = true.
Proof. destruct mx; simpl; naive_solver. Qed.

(** An attribute that is a dict with a value other than [None] under
    [k] was copied from a dict of the document that has the key [k]. *)
Lemma dict_attribute_key (doc : gmap string value) (key k : string) (x : value) :
  is_dict (dict_get doc key empty_dict) = true →
  method_get (dict_get doc key empty_dict) k = Some x →
  x ≠ VNone →
  ∃ d, doc !! key = Some (VDict d) ∧ d !! k = Some x.
Proof.
  unfold dict_get. intros Hd Hget Hx.
  destruct (doc !! key) as [[ | | | | | |d]|]; simpl in *; try discriminate.
  - exists d. split; [done |]. unfold dict_get in Hget.
    destruct (d !! k); simpl in *; congruence.
  - unfold dict_get in Hget. rewrite lookup_empty in Hget. simpl in Hget.
    congruence.
Qed.

(** X11. [test_attribute_extraction] passes exactly when the parser
    turns the raw string into a dict that classifies, under any of the
    three diagram types, and holds dicts under [config], [head] and
    [foot] with a value equal to 2 under [hscale], [Header] under
    [text] of [head] and [Footer] under [text] of [foot]. *)
Theorem test_attribute_extraction_passes (env : Env) :
  test_attribute_extraction env = true ↔
  ∃ doc ty c h f v,
    loads env attributes_raw_string = Returns (VDict doc)
    ∧ classified doc ty
    ∧ doc !! "config" = Some (VDict c)
    ∧ c !! "hscale" = Some v ∧ eq_int v 2 = true
    ∧ doc !! "head" = Some (VDict h) ∧ h !! "text" = Some (VStr "Header")
    ∧ doc !! "foot" = Some (VDict f) ∧ f !! "text" = Some (VStr "Footer").
Proof.
  unfold test_attribute_extraction. split.
  - destruct (constructed env attributes_raw_string) as [p|e] eqn:Hc;
      [| discriminate].
    apply constructed_ok_iff in Hc as (doc & ty & Hp & Hcl & ->).
    apply (parses_to_raw env attributes_raw_string doc eq_refl) in Hp.
    cbn [attempt mbind option_bind config head foot project_of].
    intros H.
    apply passes_assert in H as [Hdc H]. apply passes_assert in H as [Hdh H].
    apply passes_assert in H as [Hdf H].
    apply passes_bind in H as (v & Hv & H). apply passes_assert in H as [Hv2 H].
    apply passes_bind in H as (th & Hth & H). apply passes_assert in H as [Hth2 H].
    apply passes_bind in H as (tf & Htf & H). apply passes_assert in H as [Htf2 _].
    destruct (dict_attribute_key doc "config" "hscale" v Hdc Hv) as (c & Hc & Hcv);
      [by intros -> |].
    destruct (dict_attribute_key doc "head" "text" th Hdh Hth) as (h & Hh & Hht);
      [by intros -> |].
    destruct (dict_attribute_key doc "foot" "text" tf Hdf Htf) as (f & Hf & Hft);
      [by intros -> |].
    destruct th as [ | | | |th| | ]; try discriminate.
    destruct tf as [ | | | |tf| | ]; try discriminate.
    simpl in Hth2, Htf2.
    apply String.eqb_eq in Hth2 as ->. apply String.eqb_eq in Htf2 as ->.
    by exists doc, ty, c, h, f, v.
  - intros (doc & ty & c & h & f & v & Hl & Hcl & Hcfg & Hv & Hv2 & Hh & Hth
            & Hf & Htf).
    assert (constructed env attributes_raw_string = Ok (project_of doc ty)) as ->.
    { apply constructed_ok_iff. exists doc, ty.
      split; [by apply (parses_to_raw env attributes_raw_string doc eq_refl) |].
      done. }
    simpl. unfold dict_get. rewrite Hcfg, Hh, Hf. simpl.
    unfold dict_get. rewrite Hv. simpl. rewrite Hv2. simpl.
    rewrite Hth. simpl. by rewrite Htf.
Qed.

(** The int 2, the float 2.0 of a double and no other int are equal
    to 2; [True] is not. *)
Lemma eq_int_two :
  eq_int (VInt 2) 2 = true
  ∧ eq_int (VFloat (S754_finite false 4503599627370496 (-51))) 2 = true
  ∧ eq_int (VBool true) 2 = false
  ∧ ∀ n, eq_int (VInt n) 2 = true → n = 2%Z.
Proof.
  repeat split; try reflexivity. intros n H. simpl in H. lia.
Qed.

(** X12. [main] of the test script returns 0 when the five tests pass
    and 1 as soon as one of them fails. *)
Theorem main_exit_status (env : Env) :
  main env =
    if test_signal_file env && test_reg_file env && test_raw_string env
       && test_invalid_inputs env && test_attribute_extraction env
    then 0%Z else 1%Z.
Proof.
  unfold main. cbn [fold_left].
  destruct (test_signal_file env), (test_reg_file env), (test_raw_string env),
    (test_invalid_inputs env), (test_attribute_extraction env); reflexivity.
Qed.

(** ** Short inputs *)


